(** * SocialAi: the Healdec self-healing engine and the Worker Manager

    A shallow embedding of the JavaScript of the repository that
    supervises workers: the Healdec engine ([safeUpdate], [validate],
    [rollback], [alertAdmin], [checkWorkerHealth]) as documented in
    docs/HEALDEC.md and the features guide, the Worker Manager
    ([startWorker], [restartWorker], [handleWorkerFailure]) of the worker
    guide, and the test double of the orchestrator test-suite.  Further
    on come the rest of the Worker Manager ([startWorkers],
    [stopAllWorkers]), the doubles of the test-suite, the retry loop of
    [callExternalAPI] and the processing loop of a worker.

    JavaScript numbers that hold counters, delays and timestamps are
    integers in every place modelled here and are embedded as [Z];
    ratios are embedded as [Q].  [Map] objects and the [CONFIG.workers]
    object are finite maps keyed by strings; the members that the
    [CONFIG.workers] object inherits are added in [Engine].  Asynchronous functions are
    awaited at every call modelled here, so they are embedded in a
    state-and-exception monad over the process state [World]. *)

From Stdlib Require Import ZArith QArith Lia.
From stdpp Require Import base option list strings pretty gmap.

Local Open Scope Z_scope.

(** ** Data *)

(** One entry of [CONFIG.workers]. *)
Record WorkerConfig : Type := mkWorkerConfig {
  enabled : bool;
  path : string;
  interval : Z
}.

(** [CONFIG.healdec]. *)
Record HealdecConfig : Type := mkHealdecConfig {
  healthCheckInterval : Z;
  restartDelay : Z;
  maxRestarts : Z
}.

(** [resetInterval] of the restart policy and of [HEALDEC_CONFIG], with
    the comment "Reset restart count after 1 hour".  No function of the
    repository reads it. *)
Definition resetInterval : Z := 3600000.

(** The values of [CONFIG.healdec] given in the guides. *)
Definition default_healdec : HealdecConfig :=
  {| healthCheckInterval := 30000; restartDelay := 5000; maxRestarts := 3 |}.

(** The object built by [alertAdmin]. *)
Record Alert : Type := mkAlert {
  level : string;
  component : string;
  message : string;
  timestamp : Z;
  actions : list string
}.

(** The closure handed to [setTimeout] by [restartWorker] and
    [handleWorkerFailure]: it captures [name], [config] and the
    [restartCount] read when the timer was created.  [t_delay] is the
    second argument of [setTimeout], [t_due] the instant it elapses. *)
Record Timer : Type := mkTimer {
  t_name : string;
  t_config : option WorkerConfig;
  t_restartCount : Z;
  t_delay : Z;
  t_due : Z
}.

(** Effects that leave the process, in the order they happen. *)
Inductive Event : Type :=
| ConsoleLog (msg : string)
| ConsoleError (msg : string)
| StopComponent (target : string)
| StartComponent (target : string)
| Spawn (name : string) (workerPath : string) (pid : Z)
| Kill (name : string) (pid : Z)
| NotifyAdminConsole (a : Alert)
| SendEmail (a : Alert).

(** The mutable state of the orchestrator process. *)
Record World : Type := mkWorld {
  now : Z;                                  (* Date.now() *)
  CONFIG_workers : gmap string WorkerConfig; (* CONFIG.workers *)
  workers : gmap string Z;                   (* workerManager.workers, by pid *)
  restartCounts : gmap string Z;             (* workerManager.restartCounts *)
  healthChecks : gmap string bool;           (* healdec.healthChecks *)
  timers : list Timer;                       (* pending setTimeout callbacks *)
  alerts : list Alert;                       (* rows of the alerts table *)
  trace : list Event;                        (* effects so far, oldest first *)
  nextPid : Z
}.

Definition initial_world : World :=
  {| now := 0; CONFIG_workers := ∅; workers := ∅; restartCounts := ∅;
     healthChecks := ∅; timers := []; alerts := []; trace := [];
     nextPid := 1 |}.

Definition set_now (t : Z) (w : World) : World :=
  mkWorld t (CONFIG_workers w) (workers w) (restartCounts w) (healthChecks w)
          (timers w) (alerts w) (trace w) (nextPid w).
Definition set_CONFIG_workers (c : gmap string WorkerConfig) (w : World) : World :=
  mkWorld (now w) c (workers w) (restartCounts w) (healthChecks w)
          (timers w) (alerts w) (trace w) (nextPid w).
Definition set_workers (m : gmap string Z) (w : World) : World :=
  mkWorld (now w) (CONFIG_workers w) m (restartCounts w) (healthChecks w)
          (timers w) (alerts w) (trace w) (nextPid w).
Definition set_restartCounts (m : gmap string Z) (w : World) : World :=
  mkWorld (now w) (CONFIG_workers w) (workers w) m (healthChecks w)
          (timers w) (alerts w) (trace w) (nextPid w).
Definition set_healthChecks (m : gmap string bool) (w : World) : World :=
  mkWorld (now w) (CONFIG_workers w) (workers w) (restartCounts w) m
          (timers w) (alerts w) (trace w) (nextPid w).
Definition set_timers (l : list Timer) (w : World) : World :=
  mkWorld (now w) (CONFIG_workers w) (workers w) (restartCounts w)
          (healthChecks w) l (alerts w) (trace w) (nextPid w).
Definition set_alerts (l : list Alert) (w : World) : World :=
  mkWorld (now w) (CONFIG_workers w) (workers w) (restartCounts w)
          (healthChecks w) (timers w) l (trace w) (nextPid w).
Definition set_trace (l : list Event) (w : World) : World :=
  mkWorld (now w) (CONFIG_workers w) (workers w) (restartCounts w)
          (healthChecks w) (timers w) (alerts w) l (nextPid w).
Definition set_nextPid (p : Z) (w : World) : World :=
  mkWorld (now w) (CONFIG_workers w) (workers w) (restartCounts w)
          (healthChecks w) (timers w) (alerts w) (trace w) p.

(** ** JavaScript control flow: completions, [throw], [try]/[catch] *)

Inductive completion (A : Type) : Type :=
| Normal (a : A)
| Throw (e : string).
Arguments Normal {A} a.
Arguments Throw {A} e.

Definition M (A : Type) : Type := World → completion A * World.

#[export] Instance M_ret : MRet M := λ A a w, (Normal a, w).
#[export] Instance M_bind : MBind M := λ A B f m w,
  match m w with
  | (Normal a, w') => f a w'
  | (Throw e, w') => (Throw e, w')
  end.

Definition throw {A : Type} (e : string) : M A := λ w, (Throw e, w).

(** [try { body } catch (error) { handler }]: what [body] did to the state
    before it threw stays done. *)
Definition try_catch {A : Type} (body : M A) (handler : string → M A) : M A :=
  λ w, match body w with
       | (Normal a, w') => (Normal a, w')
       | (Throw e, w') => handler e w'
       end.

(** Reading and updating the process state. *)
Definition gets {A : Type} (f : World → A) : M A := λ w, (Normal (f w), w).
Definition modify (f : World → World) : M unit := λ w, (Normal tt, f w).

Definition emit (e : Event) : M unit :=
  modify (λ w, set_trace (trace w ++ [e]) w).
Definition console_log (msg : string) : M unit := emit (ConsoleLog msg).
Definition console_error (msg : string) : M unit := emit (ConsoleError msg).

Ltac run_monad :=
  cbv beta iota delta [mbind M_bind mret M_ret gets modify emit console_log
    console_error throw try_catch] in *;
  simpl in *.

(** ** The health registry of the orchestrator test-suite

    The [HealdecEngine] class of the test-suite keeps one verdict per
    worker name in [this.healthChecks]. *)
Module Registry.

(** [this.healthChecks.get(workerName) || false]: [get] of a missing key
    is [undefined], and [undefined || false] is [false]. *)
Definition checkWorkerHealth (workerName : string) (w : World) : bool :=
  match healthChecks w !! workerName with
  | Some healthy => healthy || false
  | None => false
  end.

(** [this.healthChecks.set(workerName, healthy)]. *)
Definition setWorkerHealth (workerName : string) (healthy : bool) (w : World) : World :=
  set_healthChecks (<[workerName := healthy]> (healthChecks w)) w.

(** A history of [setWorkerHealth] calls, oldest first. *)
Definition record_all (calls : list (string * bool)) (w : World) : World :=
  foldl (λ acc c, setWorkerHealth c.1 c.2 acc) w calls.

End Registry.

(** ** The Alert Manager *)
Module Alerts.

(** [alertAdmin(target, message)]: the alert is built with the literal
    level ['critical'], inserted in the alerts table, sent to the admin
    console, and e-mailed because its level is critical. *)
Definition alertAdmin (target message : string) : M unit :=
  isoNow ← gets now;
  let alert := {| level := "critical";
                  component := target;
                  message := message;
                  timestamp := isoNow;
                  actions := ["manual_intervention_required"] |} in
  modify (λ w, set_alerts (alerts w ++ [alert]) w);;
  emit (NotifyAdminConsole alert);;
  if String.eqb (level alert) "critical"
  then emit (SendEmail alert)
  else mret tt.

End Alerts.

(** ** The Worker Manager *)
Module WorkerManager.
Section WithConfig.

Variable CONFIG_healdec : HealdecConfig.

(** [startWorker(name, config)]: spawn the process, remember it in
    [this.workers] and record the worker as healthy.  Reading
    [config.path] of an [undefined] config is a [TypeError]. *)
Definition startWorker (name : string) (config : option WorkerConfig) : M unit :=
  match config with
  | None => throw "TypeError: Cannot read properties of undefined (reading 'path')"
  | Some c =>
      pid ← gets nextPid;
      modify (set_nextPid (pid + 1));;
      emit (Spawn name (path c) pid);;
      modify (λ w, set_workers (<[name := pid]> (workers w)) w);;
      modify (Registry.setWorkerHealth name true)
  end.

(** [this.restartCounts.get(name) || 0]. *)
Definition get_restartCount (name : string) (w : World) : Z :=
  default 0 (restartCounts w !! name).

(** [setTimeout(() => { this.startWorker(name, config);
    this.restartCounts.set(name, restartCount + 1); }, delay)]. *)
Definition setTimeout (name : string) (config : option WorkerConfig)
    (restartCount delay : Z) : M unit :=
  modify (λ w,
    set_timers (timers w ++ [mkTimer name config restartCount delay (now w + delay)]) w).

(** The body of that callback, run when the timer elapses. *)
Definition fireTimer (t : Timer) : M unit :=
  startWorker (t_name t) (t_config t);;
  modify (λ w,
    set_restartCounts (<[t_name t := t_restartCount t + 1]> (restartCounts w)) w).

(** [handleWorkerFailure(name, config)] of the features guide.
    [Math.pow(2, restartCount)] is [2 ^ restartCount]; the count is
    never negative.  The call of [alertAdmin] is not awaited; its
    effects are recorded where the call is made. *)
Definition handleWorkerFailure (name : string) (config : WorkerConfig) : M unit :=
  restartCount ← gets (get_restartCount name);
  if maxRestarts CONFIG_healdec <=? restartCount then
    console_error ("Max restarts reached for " ++ name);;
    Alerts.alertAdmin name "Max restart limit reached"
  else
    let delay := restartDelay CONFIG_healdec * 2 ^ restartCount in
    setTimeout name (Some config) restartCount delay.

(** [restartWorker(name)] of the [WorkerManager] class. *)
Definition restartWorker (name : string) : M unit :=
  config ← gets (λ w, CONFIG_workers w !! name);
  restartCount ← gets (get_restartCount name);
  if maxRestarts CONFIG_healdec <=? restartCount then
    console_error ("Max restarts reached for " ++ name)
  else
    worker ← gets (λ w, workers w !! name);
    match worker with
    | Some pid =>
        emit (Kill name pid);;
        modify (λ w, set_workers (delete name (workers w)) w)
    | None => mret tt
    end;;
    setTimeout name config restartCount (restartDelay CONFIG_healdec).

(** The ['exit'] handler installed by [startWorker]; [code] is [None]
    for the [null] exit code of a process ended by a signal, and
    [null !== 0] holds. *)
Definition onExit (name : string) (config : WorkerConfig) (code : option Z) : M unit :=
  modify (Registry.setWorkerHealth name false);;
  if bool_decide (code = Some 0) then mret tt
  else handleWorkerFailure name config.

(** Everything that can happen to the Worker Manager: a failure is
    reported, a restart is requested, a worker exits, a pending timer
    that has elapsed runs its callback, or time passes. *)
Inductive step : World → World → Prop :=
| step_failure name config w :
    step w (handleWorkerFailure name config w).2
| step_restart name w :
    step w (restartWorker name w).2
| step_exit name config code w :
    step w (onExit name config code w).2
| step_fire t before after w :
    timers w = before ++ t :: after →
    t_due t <= now w →
    step w (fireTimer t (set_timers (before ++ after) w)).2
| step_clock d w :
    0 <= d →
    step w (set_now (now w + d) w).

(** The states the manager reaches by these steps from [initial_world],
    an orchestrator with no configured worker.  [Supervisor.reachable]
    below covers an orchestrator with any configuration. *)
Definition reachable (w : World) : Prop := rtc step initial_world w.

(** The pending timers of one worker. *)
Definition pending (name : string) (w : World) : list Timer :=
  filter (λ t, t_name t = name) (timers w).

(** The timer [handleWorkerFailure] creates in [w]. *)
Definition backoff_timer (name : string) (config : WorkerConfig) (w : World) : Timer :=
  let restartCount := get_restartCount name w in
  let delay := restartDelay CONFIG_healdec * 2 ^ restartCount in
  mkTimer name (Some config) restartCount delay (now w + delay).

(** The timer [restartWorker] creates in [w]. *)
Definition flat_timer (name : string) (w : World) : Timer :=
  mkTimer name (CONFIG_workers w !! name) (get_restartCount name w)
          (restartDelay CONFIG_healdec) (now w + restartDelay CONFIG_healdec).

(** The restart budget: every recorded count lies between zero and the
    maximum, and every pending timer captured a count below the maximum. *)
Definition within_budget (w : World) : Prop :=
  (∀ (name : string) (c : Z),
     restartCounts w !! name = Some c → 0 <= c <= maxRestarts CONFIG_healdec)
  ∧ Forall (λ t, 0 <= t_restartCount t < maxRestarts CONFIG_healdec) (timers w).

(** The alert [handleWorkerFailure] raises when it gives up at time [t]. *)
Definition max_restarts_alert (name : string) (t : Z) : Alert :=
  {| level := "critical"; component := name;
     message := "Max restart limit reached"; timestamp := t;
     actions := ["manual_intervention_required"] |}.

End WithConfig.
End WorkerManager.

(** ** The Healdec engine *)

(** What the engine calls but the repository leaves to its surroundings:
    the file system, the database, the dependency checker, the health
    probe, the process handles and the status the workers write to the
    shared store.  Each is a parameter; a probe or a process operation
    may throw, the checks of [validate] answer with a boolean. *)
Class Collaborators : Type := {
  existsSync : string → bool;                      (* fs.existsSync(workerPath) *)
  checkDependencies : string → World → bool;       (* (await checkDependencies(target)).satisfied *)
  checkDatabase : World → bool;                    (* await checkDatabase() *)
  healthCheck_outcome : string → World → completion bool; (* await healthCheck(target) *)
  stopComponent_error : string → World → option string;
  startComponent_error : string → World → option string;
  getLastSuccessfulRun : string → World → Z;       (* epoch milliseconds *)
  getErrorRate : string → World → Q
}.

Module Healdec.
Section WithCollaborators.

Context `{Collaborators}.

(** [validate(target)] of the Validation Manager, for a target that is
    a worker of [CONFIG.workers] or no member of that object at all.
    The members that the object inherits are covered by
    [Engine.validate] below. *)
Definition validate (target : string) : M bool :=
  console_log ("✔️  [Healdec] Validating " ++ target ++ "...");;
  config ← gets (λ w, CONFIG_workers w !! target);
  match config with
  | None => mret false
  | Some c =>
      if negb (existsSync (path c)) then mret false
      else
        deps ← gets (checkDependencies target);
        if negb deps then mret false
        else
          dbHealthy ← gets checkDatabase;
          if negb dbHealthy then mret false
          else mret true
  end.

(** Modelled from the spec: [healthCheck(target)] of the engine is not
    in the repository.  It is the single-component probe: it observes
    the target and answers healthy or not, or throws. *)
Definition healthCheck (target : string) : M bool :=
  λ w, (healthCheck_outcome target w, w).

(** Modelled from the spec: [backupConfig] is not in the repository.
    The Backup step snapshots the target's current configuration into
    an immutable copy; for an unknown target there is nothing to copy
    ([undefined]). *)
Definition backupConfig (target : string) : M (option WorkerConfig) :=
  gets (λ w, CONFIG_workers w !! target).

(** Modelled from the spec: [stopComponent] is not in the repository.
    Stopping sends the termination signal to the target's process. *)
Definition stopComponent (target : string) : M unit :=
  err ← gets (stopComponent_error target);
  match err with
  | Some e => throw e
  | None => emit (StopComponent target)
  end.

(** Modelled from the spec: [startComponent] is not in the repository.
    Starting launches the target with its current configuration, or
    fails with a start error. *)
Definition startComponent (target : string) : M unit :=
  err ← gets (startComponent_error target);
  match err with
  | Some e => throw e
  | None => emit (StartComponent target)
  end.

(** [CONFIG.workers[target] = backup]; a property set to [undefined]
    reads like a missing one. *)
Definition restoreConfig (target : string) (backup : option WorkerConfig) : M unit :=
  modify (λ w,
    set_CONFIG_workers
      (match backup with
       | Some c => <[target := c]> (CONFIG_workers w)
       | None => delete target (CONFIG_workers w)
       end) w).

(** [rollback(target, backup)]. *)
Definition rollback (target : string) (backup : option WorkerConfig) : M bool :=
  console_log ("↩️  [Healdec] Rolling back " ++ target ++ "...");;
  try_catch
    (stopComponent target;;
     restoreConfig target backup;;
     startComponent target;;
     healthy ← healthCheck target;
     match healthy with
     | true => console_log ("✅ [Healdec] Rollback successful for " ++ target)
     | false =>
         console_error ("❌ [Healdec] Rollback failed for " ++ target);;
         Alerts.alertAdmin target "Rollback failed"
     end;;
     mret healthy)
    (λ error,
       console_error ("❌ [Healdec] Rollback error: " ++ error);;
       mret false).

(** [safeUpdate(target, updateFn)] of the features guide. *)
Definition safeUpdate (target : string) (updateFn : M unit) : M bool :=
  backup ← backupConfig target;
  valid ← validate target;
  if negb valid then
    console_error "Validation failed";;
    mret false
  else
    try_catch
      (updateFn;;
       healthy ← healthCheck target;
       (if negb healthy then throw "Health check failed" else mret tt);;
       console_log "Update successful";;
       mret true)
      (λ error,
         console_error "Update failed, rolling back";;
         rollback target backup;;
         mret false).

(** The [checks] object and the result of [checkWorkerHealth]. *)
Record HealthChecks : Type := mkHealthChecks {
  processRunning : bool;
  recentActivity : bool;
  lowErrorRate : bool
}.

Record Health : Type := mkHealth {
  name : string;
  healthy : bool;
  checks : HealthChecks
}.

(** [Object.values(health.checks)], in insertion order. *)
Definition Object_values (c : HealthChecks) : list bool :=
  [processRunning c; recentActivity c; lowErrorRate c].

(** [x < y] on ratios. *)
Definition Qlt_bool (x y : Q) : bool := negb (Qle_bool y x).

(** [checkWorkerHealth(workerName)] of the Health Monitoring section. *)
Definition checkWorkerHealth (workerName : string) : M Health :=
  worker ← gets (λ w, workers w !! workerName);
  lastRun ← gets (getLastSuccessfulRun workerName);
  dateNow ← gets now;
  let timeSinceLastRun := dateNow - lastRun in
  errorRate ← gets (getErrorRate workerName);
  let checks := {| processRunning := bool_decide (is_Some worker);
                   recentActivity := timeSinceLastRun <? 300000;
                   lowErrorRate := Qlt_bool errorRate (5 # 100) |} in
  mret {| name := workerName;
          healthy := forallb (λ c, Bool.eqb c true) (Object_values checks);
          checks := checks |}.

End WithCollaborators.
End Healdec.

(** ** The [HealdecEngine] double of the orchestrator test-suite *)
Module TestDouble.

(** [mockWorkers] of [validate]: three workers, each [{ enabled: true }]. *)
Definition mockWorkers : gmap string bool :=
  <["solana" := true]> (<["ethereum" := true]> (<["farcaster" := true]> ∅)).

(** [mockWorkers[target] !== undefined]. *)
Definition validate (target : string) : M bool :=
  mret (bool_decide (is_Some (mockWorkers !! target))).

Definition rollback (target : string) : M bool := mret true.

Definition safeUpdate (target : string) (updateFn : M unit) : M bool :=
  validated ← validate target;
  if negb validated then mret false
  else
    try_catch
      (updateFn;; mret true)
      (λ error, rollback target;; mret false).

End TestDouble.

(** ** Runs of the Worker Manager

    An executable reading of [WorkerManager.step]: a script of signals,
    timer expirations and clock ticks applied in order. *)
Module Run.
Section WithConfig.

Variable CONFIG_healdec : HealdecConfig.

Inductive Action : Type :=
| Failure (name : string) (config : WorkerConfig)
| Restart (name : string)
| Exit (name : string) (config : WorkerConfig) (code : option Z)
| Fire (i : nat)
| Tick (d : Z).

Definition perform (a : Action) (w : World) : option World :=
  match a with
  | Failure name config =>
      Some (WorkerManager.handleWorkerFailure CONFIG_healdec name config w).2
  | Restart name =>
      Some (WorkerManager.restartWorker CONFIG_healdec name w).2
  | Exit name config code =>
      Some (WorkerManager.onExit CONFIG_healdec name config code w).2
  | Fire i =>
      match timers w !! i with
      | Some t =>
          if bool_decide (t_due t <= now w)
          then Some (WorkerManager.fireTimer t (set_timers (delete i (timers w)) w)).2
          else None
      | None => None
      end
  | Tick d =>
      if bool_decide (0 <= d) then Some (set_now (now w + d) w) else None
  end.

Fixpoint run (script : list Action) (w : World) : option World :=
  match script with
  | [] => Some w
  | a :: rest =>
      match perform a w with
      | Some w' => run rest w'
      | None => None
      end
  end.

End WithConfig.
End Run.

(** ** The vocabulary of the specification

    The definitions of this module follow the words of the
    specification, not the code; the code is compared with them. *)
Module Spec.



(** The status of a health record, with the diagnostic reason of an
    unhealthy one. *)
Inductive Status : Type :=
| Healthy
| Degraded
| Unhealthy (reason : string).

(** The verdict of the worker probe from its three checks: healthy when
    all pass, unhealthy and stale when a live worker has no recent
    successful run, degraded when a live and fresh worker has a high
    error ratio. *)
Inductive verdict : bool → bool → bool → Status → Prop :=
| verdict_healthy : verdict true true true Healthy
| verdict_stale lowErrorRate : verdict true false lowErrorRate (Unhealthy "stale")
| verdict_degraded : verdict true true false Degraded.

(** The level of an alert. *)
Definition warning : string := "warning".
Definition critical : string := "critical".

End Spec.

(** ** Observations on a safe update *)

(** The first line [validate] logs, the first line [rollback] logs, and
    the alert [rollback] raises when the restored target is unhealthy. *)
Definition validating (target : string) : Event :=
  ConsoleLog ("✔️  [Healdec] Validating " ++ target ++ "...").
Definition rolling_back (target : string) : Event :=
  ConsoleLog ("↩️  [Healdec] Rolling back " ++ target ++ "...").
Definition rollback_failed (target : string) (t : Z) : Alert :=
  {| level := "critical"; component := target; message := "Rollback failed";
     timestamp := t; actions := ["manual_intervention_required"] |}.

Section Observations.

Context `{Collaborators}.

(** Whether the validation of [target] passes in [w]. *)
Definition validates (target : string) (w : World) : bool :=
  match (Healdec.validate target w).1 with
  | Normal true => true
  | _ => false
  end.

(** The apply and verify steps, started in [w]: whether [updateFn]
    returned and the probe that follows answered healthy. *)
Definition verified (target : string) (updateFn : M unit) (w : World) : bool :=
  match updateFn w with
  | (Normal _, w') =>
      match healthCheck_outcome target w' with
      | Normal true => true
      | _ => false
      end
  | (Throw _, _) => false
  end.

(** The state in which the apply step starts: validation has logged. *)
Definition validated_world (target : string) (w : World) : World :=
  (Healdec.validate target w).2.

(** The state in which the catch block of [safeUpdate] starts. *)
Definition failed_world (target : string) (updateFn : M unit) (w : World) : World :=
  (updateFn (validated_world target w)).2.


(** A reading of the overall boolean of [checkWorkerHealth] as a
    status is faithful when it gives the verdict the specification
    gives from the same three checks. *)
Definition faithful_status (read : bool → Spec.Status) : Prop :=
  ∀ (workerName : string) (w : World) (h : Healdec.Health) (s : Spec.Status),
    (Healdec.checkWorkerHealth workerName w).1 = Normal h →
    Spec.verdict (Healdec.processRunning (Healdec.checks h))
                 (Healdec.recentActivity (Healdec.checks h))
                 (Healdec.lowErrorRate (Healdec.checks h)) s →
    read (Healdec.healthy h) = s.

End Observations.

(** ** Concrete scenarios *)
Module Scenario.

Definition farcaster : WorkerConfig :=
  {| enabled := true; path := "../workers/farcaster.worker.js"; interval := 60000 |}.

(** An orchestrator that has loaded the configuration of one worker. *)
Definition world0 : World :=
  set_CONFIG_workers (<["farcaster" := farcaster]> ∅) initial_world.

(** Surroundings in which every validation check passes, processes stop
    and start without error, and a known worker is healthy exactly when
    it polls no faster than once a minute.  The worker named [stale]
    last succeeded 400 seconds ago, the worker named [noisy] fails one
    request in ten. *)
Definition demo : Collaborators :=
  {| existsSync := λ _, true;
     checkDependencies := λ _ _, true;
     checkDatabase := λ _, true;
     healthCheck_outcome := λ target w,
       match CONFIG_workers w !! target with
       | Some c => Normal (60000 <=? interval c)
       | None => Throw "unknown component"
       end;
     stopComponent_error := λ _ _, None;
     startComponent_error := λ _ _, None;
     getLastSuccessfulRun := λ workerName w,
       if String.eqb workerName "stale" then now w - 400000 else now w - 1000;
     getErrorRate := λ workerName _,
       if String.eqb workerName "noisy" then (10 # 100)%Q else (1 # 100)%Q |}.

(** The update of the usage example: poll every 30 seconds, then
    restart the worker. *)
Definition speed_up : M unit :=
  modify (λ w,
    set_CONFIG_workers
      (alter (λ c, {| enabled := enabled c; path := path c; interval := 30000 |})
             "farcaster" (CONFIG_workers w)) w);;
  WorkerManager.restartWorker default_healdec "farcaster".


(** Three crashes of one worker, each restart firing when due. *)
Definition three_crashes : list Run.Action :=
  [Run.Failure "w2" farcaster; Run.Tick 5000; Run.Fire 0;
   Run.Failure "w2" farcaster; Run.Tick 10000; Run.Fire 0;
   Run.Failure "w2" farcaster; Run.Tick 20000; Run.Fire 0].

Definition exhausted : World :=
  default initial_world (Run.run default_healdec three_crashes initial_world).

(** One crash and its restart. *)
Definition once_restarted : World :=
  default initial_world
    (Run.run default_healdec
       [Run.Failure "w2" farcaster; Run.Tick 5000; Run.Fire 0] initial_world).

(** Two quiet hours after the budget is exhausted, then one more crash. *)
Definition crash_after_two_hours : list Run.Action :=
  [Run.Tick 7200000; Run.Failure "w2" farcaster].

(** Two failure signals for one worker before any timer elapses. *)
Definition two_signals : list Run.Action :=
  [Run.Failure "w1" farcaster; Run.Failure "w1" farcaster].

Definition doubled : World :=
  default initial_world (Run.run default_healdec two_signals initial_world).

(** Workers known to the manager, for the health probe. *)
Definition probed : World :=
  set_now 1000000
    (set_workers (<["noisy" := 3]> (<["stale" := 2]> (<["fine" := 1]> ∅)))
       initial_world).

End Scenario.

(** ** Starting and stopping all workers *)
Module Lifecycle.

(** [Object.entries(CONFIG.workers)] lists the workers in the order the
    object received them, which the finite map does not record: any
    listing of the map may be the one the loop walks. *)
Definition Object_entries (w : World) (entries : list (string * WorkerConfig)) : Prop :=
  entries ≡ₚ map_to_list (CONFIG_workers w).

(** The loop of [startWorkers()] over the entries of [CONFIG.workers]:
    every enabled worker is started. *)
Fixpoint startWorkers (entries : list (string * WorkerConfig)) : M unit :=
  match entries with
  | [] => mret tt
  | (name, config) :: rest =>
      (if enabled config
       then WorkerManager.startWorker name (Some config)
       else mret tt);;
      startWorkers rest
  end.

(** The names of the enabled workers among the entries. *)
Definition enabled_names (entries : list (string * WorkerConfig)) : list string :=
  (List.filter (λ e, enabled e.2) entries).*1.

(** The entries of [this.workers], likewise in any order. *)
Definition Map_entries (w : World) (running : list (string * Z)) : Prop :=
  running ≡ₚ map_to_list (workers w).

(** The loop of [stopAllWorkers()]: [worker.kill()] for every entry. *)
Fixpoint kill_all (running : list (string * Z)) : M unit :=
  match running with
  | [] => mret tt
  | (name, pid) :: rest => emit (Kill name pid);; kill_all rest
  end.

(** [stopAllWorkers()]: kill every worker, then [this.workers.clear()]. *)
Definition stopAllWorkers (running : list (string * Z)) : M unit :=
  kill_all running;;
  modify (set_workers ∅).

(** The processes spawned so far. *)
Definition is_Spawn (e : Event) : bool :=
  match e with
  | Spawn _ _ _ => true
  | _ => false
  end.

Definition spawned (w : World) : list Event := List.filter is_Spawn (trace w).

End Lifecycle.

(** ** More scenarios *)
Module Cases.

(** Surroundings like [Scenario.demo], except that no process can be
    stopped: the signal fails. *)
Definition stuck : Collaborators :=
  {| existsSync := λ _, true;
     checkDependencies := λ _ _, true;
     checkDatabase := λ _, true;
     healthCheck_outcome := λ target w,
       match CONFIG_workers w !! target with
       | Some c => Normal (60000 <=? interval c)
       | None => Throw "unknown component"
       end;
     stopComponent_error := λ _ _, Some "kill ESRCH";
     startComponent_error := λ _ _, None;
     getLastSuccessfulRun := λ _ w, now w - 1000;
     getErrorRate := λ _ _, (1 # 100)%Q |}.

Definition ethereum : WorkerConfig :=
  {| enabled := true; path := "../workers/ethereum.worker.js"; interval := 60000 |}.

Definition reddit : WorkerConfig :=
  {| enabled := false; path := "../workers/reddit.worker.js"; interval := 60000 |}.

(** An orchestrator configured with three workers, one of them disabled. *)
Definition configured : World :=
  set_CONFIG_workers
    (<["reddit" := reddit]> (<["ethereum" := ethereum]>
       (<["farcaster" := Scenario.farcaster]> ∅)))
    initial_world.

Definition configured_entries : list (string * WorkerConfig) :=
  [("farcaster", Scenario.farcaster); ("reddit", reddit); ("ethereum", ethereum)].

(** An update that speeds up one worker and slows down another. *)
Definition retune : M unit :=
  modify (λ w,
    set_CONFIG_workers
      (alter (λ c, {| enabled := enabled c; path := path c; interval := 30000 |})
             "farcaster"
         (alter (λ c, {| enabled := enabled c; path := path c; interval := 90000 |})
                "ethereum" (CONFIG_workers w))) w);;
  WorkerManager.restartWorker default_healdec "farcaster".

(** An update that changes the interval, requests the restart and then
    throws. *)
Definition half_done : M unit :=
  Scenario.speed_up;;
  throw "Update failed".

(** An update that slows one worker down. *)
Definition slow_down : M unit :=
  modify (λ w,
    set_CONFIG_workers
      (alter (λ c, {| enabled := enabled c; path := path c; interval := 90000 |})
             "farcaster" (CONFIG_workers w)) w).

(** [n] failure reports for one worker in a row, then the wait for the
    delay [d] of their timers, then the [n] timers elapsing; [first] is
    the place of the first of them among the pending timers. *)
Definition burst (name : string) (config : WorkerConfig) (n : nat) (d : Z) (first : nat)
    : list Run.Action :=
  replicate n (Run.Failure name config) ++ [Run.Tick d] ++ replicate n (Run.Fire first).

(** The workers of [configured], started. *)
Definition started : World :=
  (Lifecycle.startWorkers configured_entries configured).2.

(** A restart requested for a running worker. *)
Definition restarting : World :=
  (WorkerManager.restartWorker default_healdec "farcaster" started).2.

End Cases.

(** ** The rest of the [HealdecEngine] double *)
Module EngineDouble.

(** [Object.entries(mockWorkers)] of [scanDependencies], in the order of
    the object literal; the flag is [worker.enabled]. *)
Definition mockWorkers : list (string * bool) :=
  [("farcaster", true); ("ethereum", true); ("solana", true)].

(** [{ name, healthy: health }]. *)
Record ScanResult : Type := mkScanResult {
  scan_name : string;
  scan_healthy : bool
}.

(** The loop of [scanDependencies] with its accumulator [results]. *)
Fixpoint scan (entries : list (string * bool)) (results : list ScanResult)
    : M (list ScanResult) :=
  match entries with
  | [] => mret results
  | (name, worker_enabled) :: rest =>
      if negb worker_enabled then scan rest results
      else
        health ← gets (Registry.checkWorkerHealth name);
        scan rest (results ++ [mkScanResult name health])
  end.

Definition scanDependencies : M (list ScanResult) := scan mockWorkers [].

(** The verdict recorded last for [name] in a history of
    [setWorkerHealth] calls, oldest first. *)
Fixpoint last_recorded (calls : list (string * bool)) (name : string) : option bool :=
  match calls with
  | [] => None
  | (n, healthy) :: rest =>
      match last_recorded rest name with
      | Some later => Some later
      | None => if decide (n = name) then Some healthy else None
      end
  end.

End EngineDouble.

(** ** The [WorkerManager] double of the orchestrator test-suite

    The double is synchronous and keeps its own maps.  [spawn] is mocked:
    every call returns a fresh process object, numbered here in the
    order of creation, whose [kill] records that it was called.
    [mockHealdec.setWorkerHealth] is a mock that records its calls. *)
Module ManagerDouble.

Record State : Type := mkState {
  mock_workers : gmap string Z;          (* this.workers, by process number *)
  mock_restartCounts : gmap string Z;    (* this.restartCounts *)
  mock_spawned : list string;            (* the paths spawn was called with *)
  mock_killed : list Z;                  (* the processes whose kill was called *)
  mock_setWorkerHealth : list (string * bool) (* calls of the mock *)
}.

(** [new WorkerManager()]. *)
Definition fresh : State :=
  {| mock_workers := ∅; mock_restartCounts := ∅; mock_spawned := [];
     mock_killed := []; mock_setWorkerHealth := [] |}.

(** The configurations of the test-suite: [{ enabled, path }]. *)
Record Config : Type := mkConfig {
  config_enabled : bool;
  config_path : string
}.

(** [startWorker(name, config)]. *)
Definition startWorker (name : string) (config : Config) (st : State) : State :=
  let worker := Z.of_nat (length (mock_spawned st)) in
  {| mock_workers := <[name := worker]> (mock_workers st);
     mock_restartCounts := mock_restartCounts st;
     mock_spawned := mock_spawned st ++ [config_path config];
     mock_killed := mock_killed st;
     mock_setWorkerHealth := mock_setWorkerHealth st ++ [(name, true)] |}.

(** [mockConfig] of [startWorkers], in the order of the object literal. *)
Definition mockConfig : list (string * Config) :=
  [("farcaster", mkConfig true "../workers/farcaster.worker.js");
   ("ethereum", mkConfig true "../workers/ethereum.worker.js");
   ("solana", mkConfig true "../workers/solana.worker.js")].

(** [startWorkers()]. *)
Definition startWorkers (st : State) : State :=
  foldl (λ acc e, if config_enabled e.2 then startWorker e.1 e.2 acc else acc) st mockConfig.

(** [restartWorker(name)]: kill and forget the process if there is one,
    then count the restart.  Nothing is started. *)
Definition restartWorker (name : string) (st : State) : State :=
  let st1 :=
    match mock_workers st !! name with
    | Some worker =>
        {| mock_workers := delete name (mock_workers st);
           mock_restartCounts := mock_restartCounts st;
           mock_spawned := mock_spawned st;
           mock_killed := mock_killed st ++ [worker];
           mock_setWorkerHealth := mock_setWorkerHealth st |}
    | None => st
    end in
  let restartCount := default 0 (mock_restartCounts st1 !! name) in
  {| mock_workers := mock_workers st1;
     mock_restartCounts := <[name := restartCount + 1]> (mock_restartCounts st1);
     mock_spawned := mock_spawned st1;
     mock_killed := mock_killed st1;
     mock_setWorkerHealth := mock_setWorkerHealth st1 |}.

(** [stopAllWorkers()]; the processes are killed in the order the map
    lists them. *)
Definition stopAllWorkers (st : State) : State :=
  {| mock_workers := ∅;
     mock_restartCounts := mock_restartCounts st;
     mock_spawned := mock_spawned st;
     mock_killed := mock_killed st ++ (map_to_list (mock_workers st)).*2;
     mock_setWorkerHealth := mock_setWorkerHealth st |}.

(** [{ running, restarts }] of [getWorkerStatus(name)]. *)
Record Status : Type := mkStatus {
  running : bool;
  restarts : Z
}.

Definition getWorkerStatus (name : string) (st : State) : Status :=
  {| running := bool_decide (is_Some (mock_workers st !! name));
     restarts := default 0 (mock_restartCounts st !! name) |}.

End ManagerDouble.

(** ** Calls to external services

    [callExternalAPI(url, retries = 3)] of the features guide.  Its
    state is of its own: the requests made, the lines warned and the
    waits requested. *)
Module ExternalAPI.

Record Net : Type := mkNet {
  net_requests : list string;   (* the urls fetch was called with *)
  net_warnings : list string;   (* console.warn, oldest first *)
  net_sleeps : list Z           (* the arguments of sleep, in milliseconds *)
}.

Definition N (A : Type) : Type := Net → completion A * Net.

#[export] Instance N_ret : MRet N := λ A a s, (Normal a, s).
#[export] Instance N_bind : MBind N := λ A B f m s,
  match m s with
  | (Normal a, s') => f a s'
  | (Throw e, s') => (Throw e, s')
  end.

Definition N_throw {A : Type} (e : string) : N A := λ s, (Throw e, s).

Definition N_try_catch {A : Type} (body : N A) (handler : string → N A) : N A :=
  λ s, match body s with
       | (Normal a, s') => (Normal a, s')
       | (Throw e, s') => handler e s'
       end.

Definition console_warn (msg : string) : N unit :=
  λ s, (Normal tt, mkNet (net_requests s) (net_warnings s ++ [msg]) (net_sleeps s)).

(** [sleep(ms)] is not in the repository; the wait it is asked for is
    recorded. *)
Definition sleep (ms : Z) : N unit :=
  λ s, (Normal tt, mkNet (net_requests s) (net_warnings s) (net_sleeps s ++ [ms])).

Section WithNetwork.

Variable Response : Type.

(** What the network answers to the request made after [k] earlier
    ones: a response, or the error [fetch] throws. *)
Variable answer : nat → completion Response.

(** [await fetch(url)]. *)
Definition fetch (url : string) : N Response :=
  λ s, (answer (length (net_requests s)),
        mkNet (net_requests s ++ [url]) (net_warnings s) (net_sleeps s)).

(** The line warned after attempt [i] has failed. *)
Definition failed_attempt (i retries : Z) : string :=
  "API call failed (attempt " ++ pretty (i + 1) ++ "/" ++ pretty retries ++ ")".

(** The iterations of the [for] loop from [i] on, [remaining] of them
    left, followed by the [throw] after the loop. *)
Fixpoint attempts (url : string) (retries : Z) (remaining : nat) (i : Z) : N Response :=
  match remaining with
  | O => N_throw "API call failed after retries"
  | S later =>
      N_try_catch
        (fetch url)
        (λ error,
           console_warn (failed_attempt i retries);;
           (if i <? retries - 1 then sleep (1000 * 2 ^ i) else mret tt);;
           attempts url retries later (i + 1))
  end.

(** [callExternalAPI(url, retries)] for an integer [retries]: the loop
    runs for [i] from 0 while [i < retries]. *)
Definition callExternalAPI (url : string) (retries : Z) : N Response :=
  attempts url retries (Z.to_nat retries) 0.

End WithNetwork.

(** A network that fails its first three requests and then answers. *)
Definition flaky (k : nat) : completion string :=
  if (k <? 3)%nat then Throw "ECONNRESET" else Normal "200 OK".

Definition quiet : Net := mkNet [] [] [].

End ExternalAPI.

(** ** The processing loop of a worker

    [startPeriodicProcessing()] and [processItem(item)] of the worker
    guide.  The state is the worker's own: its [running] flag, what it
    reported to Healdec, what it wrote to the console and the errors it
    logged. *)
Module Worker.

Record St : Type := mkSt {
  running : bool;                         (* this.running *)
  health_reports : list string;           (* the arguments of reportHealth *)
  console_errors : list string;           (* console.error, oldest first *)
  logged_errors : list (string * string)  (* the arguments of logError *)
}.

Definition W (A : Type) : Type := St → completion A * St.

#[export] Instance W_ret : MRet W := λ A a s, (Normal a, s).
#[export] Instance W_bind : MBind W := λ A B f m s,
  match m s with
  | (Normal a, s') => f a s'
  | (Throw e, s') => (Throw e, s')
  end.

Definition W_try_catch {A : Type} (body : W A) (handler : string → W A) : W A :=
  λ s, match body s with
       | (Normal a, s') => (Normal a, s')
       | (Throw e, s') => handler e s'
       end.

(** What the loop calls and the guide leaves to each worker.  An item is
    known by its [id]. *)
Class Hooks : Type := {
  worker_name : string;                                   (* this.name *)
  shouldRun_outcome : St → completion bool;               (* await this.shouldRun() *)
  fetchWorkItems_outcome : St → completion (list string); (* await this.fetchWorkItems() *)
  doWork_outcome : string → St → completion unit;         (* await this.doWork(item) *)
  logError_error : string → string → St → option string;  (* what logError throws *)
  updateProcessingMetadata_error : St → option string
}.

Section WithHooks.

Context `{Hooks}.

Definition observe {A : Type} (outcome : St → completion A) : W A :=
  λ s, (outcome s, s).

Definition console_error (msg : string) : W unit :=
  λ s, (Normal tt,
        mkSt (running s) (health_reports s) (console_errors s ++ [msg]) (logged_errors s)).

(** [this.reportHealth(status)] is not in the repository; the report is
    recorded. *)
Definition reportHealth (status : string) : W unit :=
  λ s, (Normal tt,
        mkSt (running s) (health_reports s ++ [status]) (console_errors s) (logged_errors s)).

(** [await this.logError(item.id, error)]: the call is recorded, then it
    may throw. *)
Definition logError (id error : string) : W unit :=
  λ s, let s' := mkSt (running s) (health_reports s) (console_errors s)
                      (logged_errors s ++ [(id, error)]) in
       match logError_error id error s with
       | Some e => (Throw e, s')
       | None => (Normal tt, s')
       end.

Definition updateProcessingMetadata : W unit :=
  λ s, match updateProcessingMetadata_error s with
       | Some e => (Throw e, s)
       | None => (Normal tt, s)
       end.

(** [processItem(item)]. *)
Definition processItem (item : string) : W unit :=
  W_try_catch
    (observe (doWork_outcome item))
    (λ error,
       console_error ("[" ++ worker_name ++ "] Error processing " ++ item ++ ": " ++ error);;
       logError item error).

(** [for (const item of items) { await this.processItem(item); }]. *)
Fixpoint processAll (items : list string) : W unit :=
  match items with
  | [] => mret tt
  | item :: rest => processItem item;; processAll rest
  end.

(** The callback [startPeriodicProcessing] hands to [setInterval]. *)
Definition tick : W unit :=
  λ s,
    if negb (running s) then (Normal tt, s)
    else
      W_try_catch
        (go ← observe shouldRun_outcome;
         if negb go then mret tt
         else
           items ← observe fetchWorkItems_outcome;
           processAll items;;
           updateProcessingMetadata;;
           reportHealth "healthy")
        (λ error,
           console_error ("[" ++ worker_name ++ "] Error: " ++ error);;
           reportHealth "unhealthy") s.

End WithHooks.

(** A worker whose work fails for every item while everything around it
    works. *)
Definition hapless : Hooks :=
  {| worker_name := "farcaster";
     shouldRun_outcome := λ _, Normal true;
     fetchWorkItems_outcome := λ _, Normal ["cast-1"; "cast-2"; "cast-3"];
     doWork_outcome := λ _ _, Throw "ETIMEDOUT";
     logError_error := λ _ _ _, None;
     updateProcessingMetadata_error := λ _, None |}.

Definition idle : St := mkSt true [] [] [].

End Worker.

(** ** Targets that are not workers

    [CONFIG.workers] is a plain object: besides the workers it holds, a
    lookup [CONFIG.workers[target]] finds the members every object
    inherits from [Object.prototype].  [Healdec.validate] above is the
    reading of [validate] for the other targets; this module adds the
    inherited ones, for which [validate] throws. *)
Module Engine.

(** The names of the members of [Object.prototype]. *)
Definition Object_prototype : list string :=
  ["constructor"; "__defineGetter__"; "__defineSetter__"; "hasOwnProperty";
   "__lookupGetter__"; "__lookupSetter__"; "isPrototypeOf";
   "propertyIsEnumerable"; "toString"; "valueOf"; "__proto__"; "toLocaleString"].

(** What [CONFIG.workers[target]] evaluates to: the configuration of a
    worker, an inherited member (a function or an object, truthy, and
    without a [path]), or [undefined]. *)
Inductive Property : Type :=
| Own (config : WorkerConfig)
| Inherited
| Undefined.

Definition get (target : string) (w : World) : Property :=
  match CONFIG_workers w !! target with
  | Some config => Own config
  | None => if bool_decide (target ∈ Object_prototype) then Inherited else Undefined
  end.

Section WithCollaborators.

Context `{Collaborators}.

(** [validate(target)] of the Validation Manager, for every target.  An
    inherited member passes the first check, for it is truthy, and
    [join(__dirname, undefined)] then throws. *)
Definition validate (target : string) : M bool :=
  console_log ("✔️  [Healdec] Validating " ++ target ++ "...");;
  config ← gets (get target);
  match config with
  | Undefined => mret false
  | Inherited =>
      throw "TypeError [ERR_INVALID_ARG_TYPE]: The path argument must be of type string. Received undefined"
  | Own c =>
      if negb (existsSync (path c)) then mret false
      else
        deps ← gets (checkDependencies target);
        if negb deps then mret false
        else
          dbHealthy ← gets checkDatabase;
          if negb dbHealthy then mret false
          else mret true
  end.

(** [safeUpdate(target, updateFn)] of the features guide, for every
    target: the backup and the validation are awaited before the [try]. *)
Definition safeUpdate (target : string) (updateFn : M unit) : M bool :=
  backup ← Healdec.backupConfig target;
  valid ← validate target;
  if negb valid then
    console_error "Validation failed";;
    mret false
  else
    try_catch
      (updateFn;;
       healthy ← Healdec.healthCheck target;
       (if negb healthy then throw "Health check failed" else mret tt);;
       console_log "Update successful";;
       mret true)
      (λ error,
         console_error "Update failed, rolling back";;
         Healdec.rollback target backup;;
         mret false).

End WithCollaborators.
End Engine.

(** ** The Worker Manager in a configured orchestrator *)
Module Supervisor.
Section WithConfig.

Variable CONFIG_healdec : HealdecConfig.

(** The state right after [new WorkerManager()]: no restart has been
    counted and no timer is pending; the configuration, the clock and
    everything else are arbitrary. *)
Definition fresh (w : World) : Prop :=
  restartCounts w = ∅ ∧ timers w = [].

(** Everything that can happen around the Worker Manager: a step of
    [WorkerManager.step], a call of [startWorker], [startWorkers] or
    [stopAllWorkers], a verdict written to the registry, or an edit of
    [CONFIG.workers]. *)
Inductive step : World → World → Prop :=
| step_manager w w' :
    WorkerManager.step CONFIG_healdec w w' →
    step w w'
| step_startWorker name config w :
    step w (WorkerManager.startWorker name (Some config) w).2
| step_startWorkers entries w :
    Lifecycle.Object_entries w entries →
    step w (Lifecycle.startWorkers entries w).2
| step_stopAllWorkers running w :
    Lifecycle.Map_entries w running →
    step w (Lifecycle.stopAllWorkers running w).2
| step_setWorkerHealth name healthy w :
    step w (Registry.setWorkerHealth name healthy w)
| step_config workers w :
    step w (set_CONFIG_workers workers w).

Definition reachable (w : World) : Prop :=
  ∃ w0 : World, fresh w0 ∧ rtc step w0 w.

End WithConfig.
End Supervisor.

(** ** Scenarios of a configured orchestrator *)
Module Configured.

(** A restart request for a configured worker and then two crashes of
    it, each restart firing when due. *)
Definition three_restarts : list Run.Action :=
  [Run.Restart "farcaster"; Run.Tick 5000; Run.Fire 0;
   Run.Failure "farcaster" Scenario.farcaster; Run.Tick 10000; Run.Fire 0;
   Run.Failure "farcaster" Scenario.farcaster; Run.Tick 20000; Run.Fire 0].

(** The orchestrator of [Cases.started] after these restarts. *)
Definition worn_out : World :=
  default initial_world (Run.run default_healdec three_restarts Cases.started).

(** The orchestrator of [Cases.started] with a restart of [ethereum]
    pending. *)
Definition busy : World :=
  (WorkerManager.restartWorker default_healdec "ethereum" Cases.started).2.

End Configured.

(** * Properties *)

(** ** The health registry *)

Lemma record_all_other (calls : list (string * bool)) (workerName : string) (w : World) :
  workerName ∉ calls.*1 →
  healthChecks (Registry.record_all calls w) !! workerName = healthChecks w !! workerName.
Proof.
  revert w. induction calls as [|[n b] calls IH]; intros w Hnot; [done|].
  rewrite fmap_cons, not_elem_of_cons in Hnot. destruct Hnot as [Hne Hnot].
  simpl. rewrite IH by done. simpl. by rewrite lookup_insert_ne.
Qed.

(** C10. A component name never recorded through [setWorkerHealth] is
    reported unhealthy by [checkWorkerHealth], which returns [false]
    without raising, and recording [false] for the name gives the same
    answer as never having recorded it. *)
Theorem checkWorkerHealth_unknown_is_false
    (calls : list (string * bool)) (workerName : string) (w : World) :
  healthChecks w !! workerName = None →
  workerName ∉ calls.*1 →
  Registry.checkWorkerHealth workerName (Registry.record_all calls w) = false
  ∧ Registry.checkWorkerHealth workerName
      (Registry.setWorkerHealth workerName false (Registry.record_all calls w))
    = Registry.checkWorkerHealth workerName (Registry.record_all calls w).
Proof.
  intros Hnone Hnot.
  assert (Registry.checkWorkerHealth workerName (Registry.record_all calls w) = false) as Habsent.
  { unfold Registry.checkWorkerHealth. by rewrite record_all_other, Hnone. }
  split; [done|]. rewrite Habsent.
  unfold Registry.checkWorkerHealth, Registry.setWorkerHealth. simpl.
  by rewrite lookup_insert_eq.
Qed.

Lemma checkWorkerHealth_unknown_is_false_witness :
  Registry.checkWorkerHealth "reddit"
    (Registry.record_all [("farcaster", true); ("ethereum", false)] initial_world) = false
  ∧ Registry.checkWorkerHealth "reddit"
      (Registry.setWorkerHealth "reddit" false
         (Registry.record_all [("farcaster", true); ("ethereum", false)] initial_world))
    = Registry.checkWorkerHealth "reddit"
        (Registry.record_all [("farcaster", true); ("ethereum", false)] initial_world).
Proof.
  apply (checkWorkerHealth_unknown_is_false
           [("farcaster", true); ("ethereum", false)] "reddit" initial_world).
  - reflexivity.
  - refine (bool_decide_unpack _ _). vm_compute. exact I.
Defined.

(** ** Safe configuration updates *)

Section SafeUpdate.

Context `{Collaborators}.

Lemma validate_run (target : string) (w : World) :
  Healdec.validate target w
  = (Normal (validates target w), set_trace (trace w ++ [validating target]) w).
Proof.
  unfold validates, Healdec.validate, validating. run_monad.
  destruct (CONFIG_workers w !! target) as [c|]; [|done].
  destruct (existsSync (path c)); simpl; [|done].
  destruct (checkDependencies target _); simpl; [|done].
  by destruct (checkDatabase _).
Qed.

Lemma validated_world_eq (target : string) (w : World) :
  validated_world target w = set_trace (trace w ++ [validating target]) w.
Proof. unfold validated_world. by rewrite validate_run. Qed.

(** [rollback] catches whatever its body throws. *)
Lemma rollback_returns (target : string) (backup : option WorkerConfig) (w : World) :
  ∃ (ok : bool) (w' : World), Healdec.rollback target backup w = (Normal ok, w').
Proof.
  unfold Healdec.rollback, Healdec.stopComponent, Healdec.restoreConfig,
    Healdec.startComponent, Healdec.healthCheck, Alerts.alertAdmin.
  run_monad.
  repeat match goal with
         | |- context [stopComponent_error target ?x] =>
             destruct (stopComponent_error target x); [by eauto|]
         | |- context [startComponent_error target ?x] =>
             destruct (startComponent_error target x); [by eauto|]
         | |- context [healthCheck_outcome target ?x] =>
             destruct (healthCheck_outcome target x) as [[]|]
         end; by eauto.
Qed.

(** The catch block of [safeUpdate] runs whenever apply or verify fails. *)
Lemma safeUpdate_failed_apply (target : string) (updateFn : M unit) (w : World) :
  validates target w = true →
  verified target updateFn (validated_world target w) = false →
  Healdec.safeUpdate target updateFn w
  = (Normal false,
     (Healdec.rollback target (CONFIG_workers w !! target)
        (set_trace (trace (failed_world target updateFn w)
                    ++ [ConsoleError "Update failed, rolling back"])
           (failed_world target updateFn w))).2).
Proof.
  intros Hvalid Hverify.
  unfold Healdec.safeUpdate, Healdec.backupConfig, failed_world, verified in *.
  rewrite validated_world_eq in *.
  unfold gets at 1. unfold mbind at 1, M_bind at 1.
  unfold mbind at 1, M_bind at 1. rewrite validate_run, Hvalid. simpl.
  unfold try_catch. unfold mbind at 1, M_bind at 1.
  destruct (updateFn _) as [[[]|e] w2] eqn:Hupd; simpl.
  - unfold Healdec.healthCheck at 1. unfold mbind at 1, M_bind at 1.
    destruct (healthCheck_outcome target w2) as [[]|e] eqn:Hprobe; [done| |].
    + run_monad.
      destruct (rollback_returns target (CONFIG_workers w !! target)
                  (set_trace (trace w2 ++ [ConsoleError "Update failed, rolling back"]) w2))
        as (ok & w' & ->). done.
    + run_monad.
      destruct (rollback_returns target (CONFIG_workers w !! target)
                  (set_trace (trace w2 ++ [ConsoleError "Update failed, rolling back"]) w2))
        as (ok & w' & ->). done.
  - run_monad.
    destruct (rollback_returns target (CONFIG_workers w !! target)
                (set_trace (trace w2 ++ [ConsoleError "Update failed, rolling back"]) w2))
      as (ok & w' & ->). done.
Qed.

Lemma safeUpdate_committed (target : string) (updateFn : M unit) (w : World) :
  validates target w = true →
  verified target updateFn (validated_world target w) = true →
  Healdec.safeUpdate target updateFn w
  = (Normal true,
     set_trace (trace (failed_world target updateFn w) ++ [ConsoleLog "Update successful"])
       (failed_world target updateFn w)).
Proof.
  intros Hvalid Hverify.
  unfold Healdec.safeUpdate, Healdec.backupConfig, failed_world, verified in *.
  rewrite validated_world_eq in *.
  unfold gets at 1. unfold mbind at 1, M_bind at 1.
  unfold mbind at 1, M_bind at 1. rewrite validate_run, Hvalid. simpl.
  unfold try_catch. unfold mbind at 1, M_bind at 1.
  destruct (updateFn _) as [[[]|e] w2] eqn:Hupd; simpl; [|done].
  unfold Healdec.healthCheck at 1. unfold mbind at 1, M_bind at 1.
  by destruct (healthCheck_outcome target w2) as [[]|e] eqn:Hprobe.
Qed.



End SafeUpdate.

Section SafeUpdateProperties.

Context `{Collaborators}.

(** With process handles that stop and start the target without error,
    [rollback] puts the backup in place of the target's configuration
    and restarts the target; the one alert it can raise is the critical
    alert of a failed rollback. *)
Lemma rollback_restores (target : string) (backup : option WorkerConfig) (w : World) :
  (∀ w0, stopComponent_error target w0 = None) →
  (∀ w0, startComponent_error target w0 = None) →
  ∃ (ok : bool) (w' : World) (more : list Event),
    Healdec.rollback target backup w = (Normal ok, w')
    ∧ CONFIG_workers w' !! target = backup
    ∧ trace w' = trace w ++ [rolling_back target; StopComponent target;
                             StartComponent target] ++ more
    ∧ (alerts w' = alerts w
       ∨ alerts w' = alerts w ++ [rollback_failed target (now w)]).
Proof.
  intros Hstop Hstart.
  assert (∀ (m : gmap string WorkerConfig),
            match backup with
            | Some c => <[target:=c]> m
            | None => delete target m
            end !! target = backup) as Hrestored.
  { intros m. destruct backup; [apply lookup_insert_eq | apply lookup_delete_eq]. }
  unfold Healdec.rollback, Healdec.stopComponent, Healdec.restoreConfig,
    Healdec.startComponent, Healdec.healthCheck, Alerts.alertAdmin, rolling_back,
    rollback_failed.
  run_monad. rewrite Hstop. simpl. rewrite Hstart. simpl.
  match goal with
  | |- context [healthCheck_outcome target ?x] =>
      destruct (healthCheck_outcome target x) as [[]|e]
  end; simpl.
  - eexists _, _, [_]. rewrite <- !app_assoc.
    split; [reflexivity|]. simpl. split; [apply Hrestored|]. by split; [|left].
  - eexists _, _, [_; _; _]. rewrite <- !app_assoc.
    split; [reflexivity|]. simpl. split; [apply Hrestored|]. by split; [|right].
  - eexists _, _, [_]. rewrite <- !app_assoc.
    split; [reflexivity|]. simpl. split; [apply Hrestored|]. by split; [|left].
Qed.

(** C1 (amended). When validation passes and the apply step throws or
    the probe after it does not answer healthy, [safeUpdate] rolls
    back: with process handles that stop and start the target without
    error, the target's configuration is again the one snapshotted
    before the change, the target is stopped and started, and the call
    returns [false].  Every alert raised on the way has level critical;
    none has level warning. *)
Theorem safeUpdate_rolls_back (target : string) (updateFn : M unit) (w : World) :
  validates target w = true →
  verified target updateFn (validated_world target w) = false →
  (∀ w0, stopComponent_error target w0 = None) →
  (∀ w0, startComponent_error target w0 = None) →
  ∃ (w' : World) (more : list Event) (raised : list Alert),
    Healdec.safeUpdate target updateFn w = (Normal false, w')
    ∧ CONFIG_workers w' !! target = CONFIG_workers w !! target
    ∧ trace w' = trace (failed_world target updateFn w)
                 ++ [ConsoleError "Update failed, rolling back";
                     rolling_back target; StopComponent target;
                     StartComponent target] ++ more
    ∧ alerts w' = alerts (failed_world target updateFn w) ++ raised
    ∧ Forall (λ a, level a = Spec.critical ∧ level a ≠ Spec.warning) raised.
Proof.
  intros Hvalid Hverify Hstop Hstart.
  rewrite (safeUpdate_failed_apply target updateFn w Hvalid Hverify).
  set (wf := failed_world target updateFn w).
  destruct (rollback_restores target (CONFIG_workers w !! target)
              (set_trace (trace wf ++ [ConsoleError "Update failed, rolling back"]) wf)
              Hstop Hstart)
    as (ok & w' & more & -> & Hconfig & Htrace & Halerts).
  simpl in *. rewrite <- app_assoc in Htrace.
  destruct Halerts as [Halerts|Halerts].
  - exists w', more, []. rewrite app_nil_r. done.
  - exists w', more, [rollback_failed target (now wf)].
    repeat split; try done. by apply Forall_singleton.
Qed.




End SafeUpdateProperties.

(** The test double agrees on rejection: the state is untouched. *)
Lemma TestDouble_safeUpdate_rejected (target : string) (updateFn : M unit) (w : World) :
  TestDouble.mockWorkers !! target = None →
  TestDouble.safeUpdate target updateFn w = (Normal false, w).
Proof.
  intros Hnone. unfold TestDouble.safeUpdate, TestDouble.validate. run_monad.
  rewrite Hnone. rewrite bool_decide_false; [done|]. by intros [? ?].
Qed.

(** C1 (scenario). The usage example applied to a worker that is
    unhealthy at the faster interval: the update is rolled back, the
    configuration is restored, the worker restarted, the call returns
    [false], and yet no alert of level warning exists afterwards. *)
Lemma rollback_raises_no_warning_alert :
  @validates Scenario.demo "farcaster" Scenario.world0 = true
  ∧ @verified Scenario.demo "farcaster" Scenario.speed_up
      (@validated_world Scenario.demo "farcaster" Scenario.world0) = false
  ∧ (@Healdec.safeUpdate Scenario.demo "farcaster" Scenario.speed_up Scenario.world0).1
    = Normal false
  ∧ CONFIG_workers
      (@Healdec.safeUpdate Scenario.demo "farcaster" Scenario.speed_up Scenario.world0).2
    !! "farcaster" = Some Scenario.farcaster
  ∧ ¬ ∃ a : Alert,
        a ∈ alerts (@Healdec.safeUpdate Scenario.demo "farcaster" Scenario.speed_up
                      Scenario.world0).2
        ∧ level a = Spec.warning.
Proof.
  split; [vm_compute; reflexivity|].
  split; [vm_compute; reflexivity|].
  split; [vm_compute; reflexivity|].
  split; [vm_compute; reflexivity|].
  assert (alerts (@Healdec.safeUpdate Scenario.demo "farcaster" Scenario.speed_up
                    Scenario.world0).2 = []) as -> by (vm_compute; reflexivity).
  intros (a & Hin & _). by apply elem_of_nil in Hin.
Qed.

Lemma safeUpdate_rolls_back_witness :
  ∃ (w' : World) (more : list Event) (raised : list Alert),
    @Healdec.safeUpdate Scenario.demo "farcaster" Scenario.speed_up Scenario.world0
    = (Normal false, w')
    ∧ CONFIG_workers w' !! "farcaster" = CONFIG_workers Scenario.world0 !! "farcaster"
    ∧ trace w'
      = trace (@failed_world Scenario.demo "farcaster" Scenario.speed_up Scenario.world0)
        ++ [ConsoleError "Update failed, rolling back"; rolling_back "farcaster";
            StopComponent "farcaster"; StartComponent "farcaster"] ++ more
    ∧ alerts w'
      = alerts (@failed_world Scenario.demo "farcaster" Scenario.speed_up Scenario.world0)
        ++ raised
    ∧ Forall (λ a, level a = Spec.critical ∧ level a ≠ Spec.warning) raised.
Proof.
  apply (@safeUpdate_rolls_back Scenario.demo "farcaster" Scenario.speed_up Scenario.world0).
  - vm_compute. reflexivity.
  - vm_compute. reflexivity.
  - intros w0. reflexivity.
  - intros w0. reflexivity.
Defined.



(** ** The restart policy *)

Section RestartPolicy.

Variable cfg : HealdecConfig.

Local Abbreviation get_restartCount := WorkerManager.get_restartCount.
Local Abbreviation handleWorkerFailure := (WorkerManager.handleWorkerFailure cfg).
Local Abbreviation restartWorker := (WorkerManager.restartWorker cfg).
Local Abbreviation fireTimer := WorkerManager.fireTimer.
Local Abbreviation onExit := (WorkerManager.onExit cfg).

(** The timer [handleWorkerFailure] creates, and the one [restartWorker]
    creates. *)
Lemma handleWorkerFailure_schedules (name : string) (config : WorkerConfig) (w : World) :
  get_restartCount name w < maxRestarts cfg →
  handleWorkerFailure name config w
  = (Normal tt,
     set_timers (timers w ++ [WorkerManager.backoff_timer cfg name config w]) w).
Proof.
  intros Hlt. unfold WorkerManager.handleWorkerFailure, WorkerManager.setTimeout,
    WorkerManager.backoff_timer.
  run_monad. by rewrite (proj2 (Z.leb_gt _ _) Hlt).
Qed.

Lemma handleWorkerFailure_gives_up (name : string) (config : WorkerConfig) (w : World) :
  maxRestarts cfg <= get_restartCount name w →
  ∃ w' : World,
    handleWorkerFailure name config w = (Normal tt, w')
    ∧ timers w' = timers w
    ∧ restartCounts w' = restartCounts w
    ∧ alerts w' = alerts w ++ [WorkerManager.max_restarts_alert name (now w)].
Proof.
  intros Hle. unfold WorkerManager.handleWorkerFailure, Alerts.alertAdmin,
    WorkerManager.max_restarts_alert.
  run_monad. rewrite (proj2 (Z.leb_le _ _) Hle). by eexists.
Qed.

Lemma restartWorker_schedules (name : string) (w : World) :
  get_restartCount name w < maxRestarts cfg →
  ∃ w' : World,
    restartWorker name w = (Normal tt, w')
    ∧ timers w' = timers w ++ [WorkerManager.flat_timer cfg name w]
    ∧ restartCounts w' = restartCounts w.
Proof.
  intros Hlt. unfold WorkerManager.restartWorker, WorkerManager.setTimeout,
    WorkerManager.flat_timer.
  run_monad. rewrite (proj2 (Z.leb_gt _ _) Hlt).
  destruct (workers w !! name); simpl; by eexists.
Qed.

Lemma restartWorker_gives_up (name : string) (w : World) :
  maxRestarts cfg <= get_restartCount name w →
  restartWorker name w
  = (Normal tt,
     set_trace (trace w ++ [ConsoleError ("Max restarts reached for " ++ name)]) w).
Proof.
  intros Hle. unfold WorkerManager.restartWorker. run_monad.
  by rewrite (proj2 (Z.leb_le _ _) Hle).
Qed.

Lemma fireTimer_restartCounts (t : Timer) (w : World) :
  restartCounts (fireTimer t w).2
  = match t_config t with
    | Some _ => <[t_name t := t_restartCount t + 1]> (restartCounts w)
    | None => restartCounts w
    end
  ∧ timers (fireTimer t w).2 = timers w.
Proof.
  unfold WorkerManager.fireTimer, WorkerManager.startWorker.
  destruct (t_config t); run_monad; done.
Qed.

Lemma onExit_run (name : string) (config : WorkerConfig) (code : option Z) (w : World) :
  onExit name config code w
  = if bool_decide (code = Some 0)
    then (Normal tt, Registry.setWorkerHealth name false w)
    else handleWorkerFailure name config (Registry.setWorkerHealth name false w).
Proof.
  unfold WorkerManager.onExit. unfold mbind at 1, M_bind at 1, modify at 1.
  by destruct (bool_decide (code = Some 0)).
Qed.

Lemma get_restartCount_within_budget (name : string) (w : World) :
  WorkerManager.within_budget cfg w →
  0 <= get_restartCount name w
  ∧ (0 <= maxRestarts cfg → get_restartCount name w <= maxRestarts cfg).
Proof.
  intros [Hcounts _]. unfold WorkerManager.get_restartCount.
  destruct (restartCounts w !! name) as [c|] eqn:Hc; simpl; [|lia].
  specialize (Hcounts name c Hc). lia.
Qed.

Lemma handleWorkerFailure_within_budget (name : string) (config : WorkerConfig) (w : World) :
  WorkerManager.within_budget cfg w →
  WorkerManager.within_budget cfg (handleWorkerFailure name config w).2.
Proof.
  intros Hinv. pose proof (get_restartCount_within_budget name w Hinv) as [Hnonneg _].
  destruct Hinv as [Hcounts Htimers].
  destruct (Z.lt_ge_cases (get_restartCount name w) (maxRestarts cfg)) as [Hlt|Hge].
  - rewrite handleWorkerFailure_schedules by done. split; [done|]. simpl.
    apply Forall_app. split; [done|]. apply Forall_singleton. simpl. lia.
  - destruct (handleWorkerFailure_gives_up name config w Hge)
      as (w' & -> & Ht & Hc & _).
    split; simpl; by rewrite ?Ht, ?Hc.
Qed.

Lemma restartWorker_within_budget (name : string) (w : World) :
  WorkerManager.within_budget cfg w →
  WorkerManager.within_budget cfg (restartWorker name w).2.
Proof.
  intros Hinv. pose proof (get_restartCount_within_budget name w Hinv) as [Hnonneg _].
  destruct Hinv as [Hcounts Htimers].
  destruct (Z.lt_ge_cases (get_restartCount name w) (maxRestarts cfg)) as [Hlt|Hge].
  - destruct (restartWorker_schedules name w Hlt) as (w' & -> & Ht & Hc).
    split; simpl; rewrite ?Ht, ?Hc; [done|].
    apply Forall_app. split; [done|]. apply Forall_singleton. simpl. lia.
  - rewrite restartWorker_gives_up by done. done.
Qed.

(** Every step of the Worker Manager keeps the restart budget. *)
Lemma step_within_budget (w w' : World) :
  WorkerManager.step cfg w w' →
  WorkerManager.within_budget cfg w →
  WorkerManager.within_budget cfg w'.
Proof.
  intros Hstep Hinv.
  inversion Hstep as [name config w0 | name w0 | name config code w0
                     | t before after w0 Htimers Hdue | d w0 Hd]; subst.
  - by apply handleWorkerFailure_within_budget.
  - by apply restartWorker_within_budget.
  - rewrite onExit_run. destruct (bool_decide (code = Some 0)).
    + done.
    + by apply handleWorkerFailure_within_budget.
  - destruct Hinv as [Hcounts Hpending]. rewrite Htimers in Hpending.
    apply Forall_app in Hpending as [Hbefore Hrest].
    apply Forall_cons in Hrest as [Ht Hafter].
    destruct (fireTimer_restartCounts t (set_timers (before ++ after) w)) as [Hc Hts].
    split.
    + rewrite Hc. destruct (t_config t); simpl; [|done].
      intros name c. destruct (decide (t_name t = name)) as [->|Hne].
      * rewrite lookup_insert_eq. intros [= <-]. lia.
      * rewrite lookup_insert_ne by done. apply Hcounts.
    + rewrite Hts. simpl. by apply Forall_app.
  - done.
Qed.

Lemma reachable_within_budget (w : World) :
  WorkerManager.reachable cfg w → WorkerManager.within_budget cfg w.
Proof.
  unfold WorkerManager.reachable. revert w.
  apply (rtc_ind_r (WorkerManager.within_budget cfg) initial_world).
  - split; [|constructor]. intros name c. simpl. by rewrite lookup_empty.
  - intros w' w'' _ Hstep IH. by eapply step_within_budget.
Qed.

(** A script that runs is a sequence of steps. *)
Lemma perform_step (a : Run.Action) (w w' : World) :
  Run.perform cfg a w = Some w' → WorkerManager.step cfg w w'.
Proof.
  destruct a as [name config | name | name config code | i | d]; simpl.
  - intros [= <-]. constructor.
  - intros [= <-]. constructor.
  - intros [= <-]. constructor.
  - destruct (timers w !! i) as [t|] eqn:Hi; [|done].
    case_bool_decide as Hdue; [|done]. intros [= <-].
    rewrite delete_take_drop.
    apply WorkerManager.step_fire; [|done].
    by rewrite take_drop_middle.
  - case_bool_decide as Hd; [|done]. intros [= <-]. by constructor.
Qed.

Lemma run_reachable (script : list Run.Action) (w w' : World) :
  WorkerManager.reachable cfg w →
  Run.run cfg script w = Some w' →
  WorkerManager.reachable cfg w'.
Proof.
  revert w. induction script as [|a script IH]; intros w Hreach; simpl.
  - by intros [= <-].
  - destruct (Run.perform cfg a w) as [w1|] eqn:Ha; [|done].
    apply IH. eapply rtc_r; [exact Hreach|]. by apply (perform_step a).
Qed.

End RestartPolicy.

Section RestartProperties.

Variable cfg : HealdecConfig.

(** C4 (amended). For a worker whose restart count is below the maximum,
    [handleWorkerFailure] schedules the restart after
    [restartDelay * 2 ^ count], and when that timer elapses its callback
    records [count + 1]; with the default base of 5 seconds the delays
    for counts 0, 1 and 2 are 5, 10 and 20 seconds.  [restartWorker]
    schedules its restart after the plain [restartDelay], whatever the
    count. *)
Theorem backoff_delay_doubles (name : string) (config : WorkerConfig) (w : World) :
  0 <= WorkerManager.get_restartCount name w < maxRestarts cfg →
  (∃ t : Timer,
     WorkerManager.handleWorkerFailure cfg name config w
     = (Normal tt, set_timers (timers w ++ [t]) w)
     ∧ t_delay t = restartDelay cfg * 2 ^ WorkerManager.get_restartCount name w
     ∧ t_due t = now w + t_delay t
     ∧ ∀ w1 : World,
         WorkerManager.get_restartCount name (WorkerManager.fireTimer t w1).2
         = WorkerManager.get_restartCount name w + 1)
  ∧ (∃ t : Timer,
       timers (WorkerManager.restartWorker cfg name w).2 = timers w ++ [t]
       ∧ t_delay t = restartDelay cfg)
  ∧ map (λ count, restartDelay default_healdec * 2 ^ count) [0; 1; 2]
    = [5000; 10000; 20000].
Proof.
  intros [Hnonneg Hlt]. split; [|split; [|reflexivity]].
  - exists (WorkerManager.backoff_timer cfg name config w).
    split; [by apply handleWorkerFailure_schedules|].
    split; [reflexivity|]. split; [reflexivity|].
    intros w1.
    destruct (fireTimer_restartCounts (WorkerManager.backoff_timer cfg name config w) w1)
      as [Hcounts _].
    unfold WorkerManager.get_restartCount at 1. rewrite Hcounts. simpl.
    by rewrite lookup_insert_eq.
  - destruct (restartWorker_schedules cfg name w Hlt) as (w' & -> & Ht & _).
    by exists (WorkerManager.flat_timer cfg name w).
Qed.

(** C6 (amended). A failure report or a restart request for a worker
    whose count is below the maximum adds a timer of its own to the ones
    already pending for that worker: signals are not coalesced. *)
Theorem every_signal_adds_a_timer (name : string) (config : WorkerConfig) (w : World) :
  WorkerManager.get_restartCount name w < maxRestarts cfg →
  WorkerManager.pending name (WorkerManager.handleWorkerFailure cfg name config w).2
  = WorkerManager.pending name w ++ [WorkerManager.backoff_timer cfg name config w]
  ∧ WorkerManager.pending name (WorkerManager.restartWorker cfg name w).2
    = WorkerManager.pending name w ++ [WorkerManager.flat_timer cfg name w].
Proof.
  intros Hlt. unfold WorkerManager.pending. split.
  - rewrite handleWorkerFailure_schedules by done. simpl.
    rewrite filter_app. f_equal. by rewrite filter_cons_True, filter_nil.
  - destruct (restartWorker_schedules cfg name w Hlt) as (w' & -> & Ht & _). simpl.
    rewrite Ht, filter_app. f_equal. by rewrite filter_cons_True, filter_nil.
Qed.

(** The restart decision does not read the clock. *)
Lemma handleWorkerFailure_ignores_clock
    (name : string) (config : WorkerConfig) (w : World) (t : Z) :
  maxRestarts cfg <= WorkerManager.get_restartCount name w →
  timers (WorkerManager.handleWorkerFailure cfg name config (set_now t w)).2 = timers w
  ∧ restartCounts (WorkerManager.handleWorkerFailure cfg name config (set_now t w)).2
    = restartCounts w.
Proof.
  intros Hle.
  destruct (handleWorkerFailure_gives_up cfg name config (set_now t w) Hle)
    as (w' & -> & Ht & Hc & _).
  done.
Qed.

End RestartProperties.

Lemma backoff_delay_doubles_witness :
  (∃ t : Timer,
     WorkerManager.handleWorkerFailure default_healdec "w2" Scenario.farcaster
       Scenario.once_restarted
     = (Normal tt, set_timers (timers Scenario.once_restarted ++ [t]) Scenario.once_restarted)
     ∧ t_delay t = restartDelay default_healdec
                   * 2 ^ WorkerManager.get_restartCount "w2" Scenario.once_restarted
     ∧ t_due t = now Scenario.once_restarted + t_delay t
     ∧ ∀ w1 : World,
         WorkerManager.get_restartCount "w2" (WorkerManager.fireTimer t w1).2
         = WorkerManager.get_restartCount "w2" Scenario.once_restarted + 1)
  ∧ (∃ t : Timer,
       timers (WorkerManager.restartWorker default_healdec "w2" Scenario.once_restarted).2
       = timers Scenario.once_restarted ++ [t]
       ∧ t_delay t = restartDelay default_healdec)
  ∧ map (λ count, restartDelay default_healdec * 2 ^ count) [0; 1; 2]
    = [5000; 10000; 20000].
Proof.
  apply (backoff_delay_doubles default_healdec "w2" Scenario.farcaster
           Scenario.once_restarted).
  vm_compute. split; [discriminate | reflexivity].
Defined.

(** C4 (scenario). After one restart the count of the worker is 1 and
    below the maximum; a restart request then schedules the restart after
    5 seconds, not after the 10 seconds of the doubled delay. *)
Lemma restartWorker_delay_is_flat :
  WorkerManager.get_restartCount "w2" Scenario.once_restarted = 1
  ∧ 1 < maxRestarts default_healdec
  ∧ ∃ t : Timer,
      timers (WorkerManager.restartWorker default_healdec "w2" Scenario.once_restarted).2 = [t]
      ∧ t_delay t = 5000
      ∧ t_delay t ≠ restartDelay default_healdec
                    * 2 ^ WorkerManager.get_restartCount "w2" Scenario.once_restarted.
Proof.
  split; [vm_compute; reflexivity|]. split; [reflexivity|].
  eexists. split; [vm_compute; reflexivity|]. split; [reflexivity|].
  vm_compute. discriminate.
Qed.

Lemma every_signal_adds_a_timer_witness :
  WorkerManager.pending "w2"
    (WorkerManager.handleWorkerFailure default_healdec "w2" Scenario.farcaster
       Scenario.once_restarted).2
  = WorkerManager.pending "w2" Scenario.once_restarted
    ++ [WorkerManager.backoff_timer default_healdec "w2" Scenario.farcaster
          Scenario.once_restarted]
  ∧ WorkerManager.pending "w2"
      (WorkerManager.restartWorker default_healdec "w2" Scenario.once_restarted).2
    = WorkerManager.pending "w2" Scenario.once_restarted
      ++ [WorkerManager.flat_timer default_healdec "w2" Scenario.once_restarted].
Proof.
  apply (every_signal_adds_a_timer default_healdec "w2" Scenario.farcaster
           Scenario.once_restarted).
  vm_compute. reflexivity.
Defined.

(** C6 (scenario). Two failure reports for one worker, the second while
    the timer of the first is still pending, leave two pending timers for
    that worker. *)
Lemma two_signals_two_timers :
  ¬ ∀ (w : World) (name : string),
      WorkerManager.reachable default_healdec w →
      (length (WorkerManager.pending name w) ≤ 1)%nat.
Proof.
  intros Hone.
  assert (WorkerManager.reachable default_healdec Scenario.doubled) as Hreach.
  { apply (run_reachable default_healdec Scenario.two_signals initial_world).
    - apply rtc_refl.
    - vm_compute. reflexivity. }
  specialize (Hone Scenario.doubled "w1" Hreach).
  assert (length (WorkerManager.pending "w1" Scenario.doubled) = 2%nat) as Hlen
    by (vm_compute; reflexivity).
  lia.
Qed.

(** C7 (failing input). A worker has used its three restarts; two hours
    pass, twice the reset interval, and it crashes again.  The count is
    still 3, no restart is scheduled, and the failure is escalated. *)
Theorem restart_count_survives_reset_window :
  ∃ w : World,
    Run.run default_healdec Scenario.crash_after_two_hours Scenario.exhausted = Some w
    ∧ now w - now Scenario.exhausted = 2 * resetInterval
    ∧ WorkerManager.get_restartCount "w2" w = 3
    ∧ timers w = []
    ∧ alerts w = [WorkerManager.max_restarts_alert "w2" (now w)].
Proof.
  eexists. split; [vm_compute; reflexivity|].
  repeat split; vm_compute; reflexivity.
Qed.

(** ** The worker probe *)

Lemma Qlt_bool_iff (x y : Q) : Healdec.Qlt_bool x y = true ↔ (x < y)%Q.
Proof.
  unfold Healdec.Qlt_bool. rewrite negb_true_iff, <- not_true_iff_false, Qle_bool_iff.
  split; [apply Qnot_le_lt | apply Qlt_not_le].
Qed.

Section Probe.

Context `{Collaborators}.

(** C5 (amended). [checkWorkerHealth] returns, without changing the
    state, a record of three boolean checks -- the worker has a process,
    its last successful run is less than 300000 ms old, its error rate is
    below 5% -- and the overall [healthy] flag, which is [true] exactly
    when the three checks are.  The flag is the only verdict: a stale
    worker and a worker with a high error rate are both [healthy = false]
    and differ in the [checks] record alone. *)
Theorem checkWorkerHealth_is_conjunction (workerName : string) (w : World) :
  ∃ h : Healdec.Health,
    Healdec.checkWorkerHealth workerName w = (Normal h, w)
    ∧ Healdec.name h = workerName
    ∧ (Healdec.processRunning (Healdec.checks h) = true
       ↔ is_Some (workers w !! workerName))
    ∧ (Healdec.recentActivity (Healdec.checks h) = true
       ↔ now w - getLastSuccessfulRun workerName w < 300000)
    ∧ (Healdec.lowErrorRate (Healdec.checks h) = true
       ↔ (getErrorRate workerName w < 5 # 100)%Q)
    ∧ (Healdec.healthy h = true
       ↔ Healdec.processRunning (Healdec.checks h) = true
         ∧ Healdec.recentActivity (Healdec.checks h) = true
         ∧ Healdec.lowErrorRate (Healdec.checks h) = true).
Proof.
  cbv beta iota zeta delta [Healdec.checkWorkerHealth mbind M_bind mret M_ret gets].
  eexists. split; [reflexivity|]. simpl. split; [reflexivity|].
  split; [apply bool_decide_eq_true|].
  split; [apply Z.ltb_lt|].
  split; [apply Qlt_bool_iff|].
  destruct (bool_decide _), (_ <? _), (Healdec.Qlt_bool _ _); simpl; intuition congruence.
Qed.

End Probe.

(** C5 (scenario). Of two live workers, one stale and one with a high
    error rate, the specification calls the first unhealthy and the
    second degraded; [checkWorkerHealth] gives both the same overall
    verdict, so no reading of that verdict yields the two statuses. *)
Lemma overall_verdict_has_no_degraded :
  ¬ ∃ read : bool → Spec.Status, @faithful_status Scenario.demo read.
Proof.
  intros (read & Hfaithful).
  pose proof (Hfaithful "stale" Scenario.probed _ (Spec.Unhealthy "stale") eq_refl) as Hstale.
  pose proof (Hfaithful "noisy" Scenario.probed _ Spec.Degraded eq_refl) as Hnoisy.
  vm_compute in Hstale, Hnoisy.
  specialize (Hstale (Spec.verdict_stale true)).
  specialize (Hnoisy Spec.verdict_degraded).
  rewrite Hstale in Hnoisy. discriminate Hnoisy.
Qed.

(** ** More on safe updates and rollback *)

Section RollbackProperties.

Context `{Collaborators}.

(** What [rollback] leaves alone, whichever way it ends. *)
Lemma rollback_frame (target : string) (backup : option WorkerConfig) (w : World) :
  timers (Healdec.rollback target backup w).2 = timers w
  ∧ workers (Healdec.rollback target backup w).2 = workers w
  ∧ restartCounts (Healdec.rollback target backup w).2 = restartCounts w
  ∧ healthChecks (Healdec.rollback target backup w).2 = healthChecks w
  ∧ ∀ other : string,
      other ≠ target →
      CONFIG_workers (Healdec.rollback target backup w).2 !! other
      = CONFIG_workers w !! other.
Proof.
  assert (∀ (m : gmap string WorkerConfig) (other : string),
            other ≠ target →
            match backup with
            | Some c => <[target:=c]> m
            | None => delete target m
            end !! other = m !! other) as Hother.
  { intros m other Hne.
    destruct backup; [by rewrite lookup_insert_ne | by rewrite lookup_delete_ne]. }
  unfold Healdec.rollback, Healdec.stopComponent, Healdec.restoreConfig,
    Healdec.startComponent, Healdec.healthCheck, Alerts.alertAdmin.
  run_monad.
  repeat match goal with
         | |- context [stopComponent_error target ?x] =>
             destruct (stopComponent_error target x); simpl
         | |- context [startComponent_error target ?x] =>
             destruct (startComponent_error target x); simpl
         | |- context [healthCheck_outcome target ?x] =>
             destruct (healthCheck_outcome target x) as [[]|]; simpl
         end; repeat split; auto.
Qed.

Lemma rollback_stop_throws
    (target : string) (backup : option WorkerConfig) (w : World) (e : string) :
  (∀ w0, stopComponent_error target w0 = Some e) →
  Healdec.rollback target backup w
  = (Normal false,
     set_trace (trace w ++ [rolling_back target;
                            ConsoleError ("❌ [Healdec] Rollback error: " ++ e)]) w).
Proof.
  intros Hstop.
  unfold Healdec.rollback, Healdec.stopComponent, rolling_back.
  run_monad. rewrite Hstop. simpl. unfold set_trace. simpl.
  by rewrite <- app_assoc.
Qed.


(** X1. A committed update keeps everything the update function did:
    the configuration, the timers, the process table and the alerts are
    those the update function left, nothing is stopped or started, and
    one console line is added. *)
Theorem committed_update_is_kept (target : string) (updateFn : M unit) (w : World) :
  validates target w = true →
  verified target updateFn (validated_world target w) = true →
  ∃ w' : World,
    Healdec.safeUpdate target updateFn w = (Normal true, w')
    ∧ CONFIG_workers w' = CONFIG_workers (failed_world target updateFn w)
    ∧ timers w' = timers (failed_world target updateFn w)
    ∧ workers w' = workers (failed_world target updateFn w)
    ∧ alerts w' = alerts (failed_world target updateFn w)
    ∧ trace w' = trace (failed_world target updateFn w) ++ [ConsoleLog "Update successful"].
Proof.
  intros Hvalid Hverify. rewrite safeUpdate_committed by done.
  eexists. split; [reflexivity|]. done.
Qed.

(** X2. When the target's process cannot be stopped, the rollback is
    abandoned before the configuration is restored: [safeUpdate] returns
    [false] with the failed update still in [CONFIG.workers], nothing is
    started and no alert is raised. *)
Theorem rollback_abandoned_when_stop_throws
    (target : string) (updateFn : M unit) (w : World) (e : string) :
  validates target w = true →
  verified target updateFn (validated_world target w) = false →
  (∀ w0, stopComponent_error target w0 = Some e) →
  ∃ w' : World,
    Healdec.safeUpdate target updateFn w = (Normal false, w')
    ∧ CONFIG_workers w' = CONFIG_workers (failed_world target updateFn w)
    ∧ alerts w' = alerts (failed_world target updateFn w)
    ∧ trace w' = trace (failed_world target updateFn w)
                 ++ [ConsoleError "Update failed, rolling back"; rolling_back target;
                     ConsoleError ("❌ [Healdec] Rollback error: " ++ e)].
Proof.
  intros Hvalid Hverify Hstop.
  rewrite safeUpdate_failed_apply by done.
  rewrite (rollback_stop_throws target _ _ e Hstop).
  eexists. split; [reflexivity|]. simpl. by rewrite <- app_assoc.
Qed.

(** X3. A rollback restores the target's entry only: what the update
    function did to the configuration of other workers stays, and so do
    the restart timers it scheduled. *)
Theorem rollback_is_per_target
    (target other : string) (updateFn : M unit) (w : World) :
  validates target w = true →
  verified target updateFn (validated_world target w) = false →
  other ≠ target →
  CONFIG_workers (Healdec.safeUpdate target updateFn w).2 !! other
  = CONFIG_workers (failed_world target updateFn w) !! other
  ∧ timers (Healdec.safeUpdate target updateFn w).2
    = timers (failed_world target updateFn w).
Proof.
  intros Hvalid Hverify Hne.
  rewrite safeUpdate_failed_apply by done. simpl.
  destruct (rollback_frame target (CONFIG_workers w !! target)
              (set_trace (trace (failed_world target updateFn w)
                          ++ [ConsoleError "Update failed, rolling back"])
                 (failed_world target updateFn w)))
    as (Htimers & _ & _ & _ & Hconfig).
  split; [by rewrite Hconfig | by rewrite Htimers].
Qed.


End RollbackProperties.

Lemma committed_update_is_kept_witness :
  ∃ w' : World,
    @Healdec.safeUpdate Scenario.demo "farcaster" Cases.slow_down Scenario.world0
    = (Normal true, w')
    ∧ CONFIG_workers w'
      = CONFIG_workers (@failed_world Scenario.demo "farcaster" Cases.slow_down Scenario.world0)
    ∧ timers w'
      = timers (@failed_world Scenario.demo "farcaster" Cases.slow_down Scenario.world0)
    ∧ workers w'
      = workers (@failed_world Scenario.demo "farcaster" Cases.slow_down Scenario.world0)
    ∧ alerts w'
      = alerts (@failed_world Scenario.demo "farcaster" Cases.slow_down Scenario.world0)
    ∧ trace w'
      = trace (@failed_world Scenario.demo "farcaster" Cases.slow_down Scenario.world0)
        ++ [ConsoleLog "Update successful"].
Proof.
  apply (@committed_update_is_kept Scenario.demo "farcaster" Cases.slow_down Scenario.world0).
  - vm_compute. reflexivity.
  - vm_compute. reflexivity.
Defined.

Lemma rollback_abandoned_when_stop_throws_witness :
  ∃ w' : World,
    @Healdec.safeUpdate Cases.stuck "farcaster" Scenario.speed_up Scenario.world0
    = (Normal false, w')
    ∧ CONFIG_workers w'
      = CONFIG_workers (@failed_world Cases.stuck "farcaster" Scenario.speed_up Scenario.world0)
    ∧ alerts w'
      = alerts (@failed_world Cases.stuck "farcaster" Scenario.speed_up Scenario.world0)
    ∧ trace w'
      = trace (@failed_world Cases.stuck "farcaster" Scenario.speed_up Scenario.world0)
        ++ [ConsoleError "Update failed, rolling back"; rolling_back "farcaster";
            ConsoleError ("❌ [Healdec] Rollback error: " ++ "kill ESRCH")].
Proof.
  apply (@rollback_abandoned_when_stop_throws Cases.stuck "farcaster" Scenario.speed_up
           Scenario.world0 "kill ESRCH").
  - vm_compute. reflexivity.
  - vm_compute. reflexivity.
  - intros w0. reflexivity.
Defined.

Lemma rollback_is_per_target_witness :
  CONFIG_workers (@Healdec.safeUpdate Scenario.demo "farcaster" Cases.retune
                    Cases.configured).2 !! "ethereum"
  = CONFIG_workers (@failed_world Scenario.demo "farcaster" Cases.retune Cases.configured)
    !! "ethereum"
  ∧ timers (@Healdec.safeUpdate Scenario.demo "farcaster" Cases.retune Cases.configured).2
    = timers (@failed_world Scenario.demo "farcaster" Cases.retune Cases.configured).
Proof.
  apply (@rollback_is_per_target Scenario.demo "farcaster" "ethereum" Cases.retune
           Cases.configured).
  - vm_compute. reflexivity.
  - vm_compute. reflexivity.
  - discriminate.
Defined.


(** ** More on the Worker Manager *)

Lemma startWorker_run (name : string) (c : WorkerConfig) (w : World) :
  WorkerManager.startWorker name (Some c) w
  = (Normal tt,
     Registry.setWorkerHealth name true
       (set_workers (<[name := nextPid w]> (workers w))
          (set_trace (trace w ++ [Spawn name (path c) (nextPid w)])
             (set_nextPid (nextPid w + 1) w)))).
Proof. reflexivity. Qed.

Lemma spawned_app (w : World) (events : list Event) :
  Lifecycle.spawned (set_trace (trace w ++ events) w)
  = Lifecycle.spawned w ++ List.filter Lifecycle.is_Spawn events.
Proof. unfold Lifecycle.spawned. simpl. apply List.filter_app. Qed.

Lemma enabled_names_spec (entries : list (string * WorkerConfig)) (name : string) :
  name ∈ Lifecycle.enabled_names entries
  ↔ ∃ c : WorkerConfig, (name, c) ∈ entries ∧ enabled c = true.
Proof.
  unfold Lifecycle.enabled_names. rewrite list_elem_of_fmap. split.
  - intros ([n c] & -> & Hin). apply list_elem_of_In, List.filter_In in Hin as [Hin Hc].
    exists c. split; [by apply list_elem_of_In | done].
  - intros (c & Hin & Hc). exists (name, c). split; [done|].
    apply list_elem_of_In, List.filter_In. split; [by apply list_elem_of_In | done].
Qed.

(** The workers [startWorkers] starts: the enabled ones among the entries. *)
Lemma startWorkers_run (entries : list (string * WorkerConfig)) (w : World) :
  ∃ w' : World,
    Lifecycle.startWorkers entries w = (Normal tt, w')
    ∧ (∀ name : string,
         name ∈ Lifecycle.enabled_names entries →
         is_Some (workers w' !! name) ∧ healthChecks w' !! name = Some true)
    ∧ (∀ name : string,
         name ∉ Lifecycle.enabled_names entries →
         workers w' !! name = workers w !! name
         ∧ healthChecks w' !! name = healthChecks w !! name)
    ∧ length (Lifecycle.spawned w')
      = (length (Lifecycle.spawned w) + length (Lifecycle.enabled_names entries))%nat
    ∧ CONFIG_workers w' = CONFIG_workers w
    ∧ restartCounts w' = restartCounts w
    ∧ timers w' = timers w.
Proof.
  revert w. induction entries as [|[n c] rest IH]; intros w.
  - exists w. split; [done|]. split.
    + intros name Hin. by apply elem_of_nil in Hin.
    + repeat split; simpl; lia.
  - cbn [Lifecycle.startWorkers]. unfold Lifecycle.enabled_names in *.
    cbn [List.filter snd]. destruct (enabled c) eqn:Hc.
    + unfold mbind at 1, M_bind at 1. rewrite startWorker_run.
      set (w1 := Registry.setWorkerHealth n true _).
      destruct (IH w1) as (w' & -> & Hon & Hoff & Hspawn & Hcfg & Hcounts & Htimers).
      exists w'. split; [done|]. rewrite fmap_cons. cbn [fst].
      split; [|split; [|split]].
      * intros name Hin.
        destruct (decide (name ∈ (List.filter (λ e, enabled e.2) rest).*1)) as [Hrest|Hrest].
        { by apply Hon. }
        apply elem_of_cons in Hin as [->|Hin]; [|done].
        destruct (Hoff n Hrest) as [Hw Hh].
        rewrite Hw, Hh. subst w1. simpl. rewrite !lookup_insert_eq. eauto.
      * intros name Hname. apply not_elem_of_cons in Hname as [Hne Hname].
        destruct (Hoff name Hname) as [Hw Hh].
        rewrite Hw, Hh. subst w1. simpl. by rewrite !lookup_insert_ne.
      * rewrite Hspawn. subst w1. simpl.
        unfold Lifecycle.spawned. simpl. rewrite List.filter_app, length_app. simpl. lia.
      * by rewrite Hcfg, Hcounts, Htimers.
    + unfold mbind at 1, M_bind at 1. unfold mret at 1, M_ret at 1.
      apply IH.
Qed.

Lemma Object_entries_lookup
    (w : World) (entries : list (string * WorkerConfig)) (name : string) (c : WorkerConfig) :
  Lifecycle.Object_entries w entries →
  (name, c) ∈ entries ↔ CONFIG_workers w !! name = Some c.
Proof.
  unfold Lifecycle.Object_entries. intros ->. apply elem_of_map_to_list.
Qed.

(** X5. [startWorkers] starts exactly the enabled workers of
    [CONFIG.workers], in whatever order the entries come: each has a
    process and is recorded healthy afterwards, a disabled or unknown
    worker is left as it was, and one process is spawned per enabled
    worker. *)
Theorem startWorkers_starts_the_enabled_workers
    (entries : list (string * WorkerConfig)) (w : World) :
  Lifecycle.Object_entries w entries →
  ∃ w' : World,
    Lifecycle.startWorkers entries w = (Normal tt, w')
    ∧ (∀ (name : string) (c : WorkerConfig),
         CONFIG_workers w !! name = Some c → enabled c = true →
         is_Some (workers w' !! name) ∧ Registry.checkWorkerHealth name w' = true)
    ∧ (∀ name : string,
         (∀ c, CONFIG_workers w !! name = Some c → enabled c = false) →
         workers w' !! name = workers w !! name
         ∧ healthChecks w' !! name = healthChecks w !! name)
    ∧ length (Lifecycle.spawned w')
      = (length (Lifecycle.spawned w) + length (Lifecycle.enabled_names entries))%nat.
Proof.
  intros Hentries.
  destruct (startWorkers_run entries w) as (w' & Hrun & Hon & Hoff & Hspawn & _).
  exists w'. split; [done|]. split; [|split; [|done]].
  - intros name c Hc Henabled.
    destruct (Hon name) as [Hw Hh].
    { apply enabled_names_spec. exists c. by rewrite Object_entries_lookup. }
    split; [done|]. unfold Registry.checkWorkerHealth. by rewrite Hh.
  - intros name Hname. apply Hoff. rewrite enabled_names_spec.
    intros (c & Hin & Henabled). rewrite Object_entries_lookup in Hin by done.
    specialize (Hname c Hin). congruence.
Qed.

Lemma kill_all_run (running : list (string * Z)) (w : World) :
  Lifecycle.kill_all running w
  = (Normal tt, set_trace (trace w ++ map (λ p, Kill p.1 p.2) running) w).
Proof.
  revert w. induction running as [|[name pid] rest IH]; intros w.
  - simpl. unfold mret, M_ret. destruct w. simpl. by rewrite app_nil_r.
  - cbn [Lifecycle.kill_all]. unfold mbind at 1, M_bind at 1, emit, modify.
    rewrite IH. simpl. unfold set_trace. simpl. by rewrite <- app_assoc.
Qed.

(** X6. [stopAllWorkers] kills every worker and empties the process
    table, but cancels no timer and resets no count: a restart that was
    pending still runs its callback afterwards and starts the worker
    again. *)
Theorem stopAllWorkers_keeps_pending_restarts
    (running : list (string * Z)) (w : World) (t : Timer) (c : WorkerConfig) :
  Lifecycle.Map_entries w running →
  t ∈ timers w →
  t_config t = Some c →
  ∃ w1 : World,
    Lifecycle.stopAllWorkers running w = (Normal tt, w1)
    ∧ workers w1 = ∅
    ∧ (∀ (name : string) (pid : Z),
         workers w !! name = Some pid → Kill name pid ∈ trace w1)
    ∧ timers w1 = timers w
    ∧ restartCounts w1 = restartCounts w
    ∧ workers (WorkerManager.fireTimer t w1).2 !! t_name t = Some (nextPid w).
Proof.
  intros Hrunning Ht Hc.
  unfold Lifecycle.stopAllWorkers. unfold mbind at 1, M_bind at 1.
  rewrite kill_all_run. unfold modify.
  eexists. split; [reflexivity|]. simpl. split; [done|]. split; [|split; [done|split; [done|]]].
  - intros name pid Hpid. apply elem_of_app. right.
    apply (list_elem_of_fmap_2 (λ p, Kill p.1 p.2) running (name, pid)).
    unfold Lifecycle.Map_entries in Hrunning. rewrite Hrunning.
    by apply elem_of_map_to_list.
  - unfold WorkerManager.fireTimer. rewrite Hc.
    unfold mbind at 1, M_bind at 1. rewrite startWorker_run. simpl.
    by rewrite lookup_insert_eq.
Qed.

Section ManagerProperties.

Variable cfg : HealdecConfig.

Lemma handleWorkerFailure_frame (name : string) (config : WorkerConfig) (w : World) :
  workers (WorkerManager.handleWorkerFailure cfg name config w).2 = workers w
  ∧ healthChecks (WorkerManager.handleWorkerFailure cfg name config w).2 = healthChecks w
  ∧ now (WorkerManager.handleWorkerFailure cfg name config w).2 = now w.
Proof.
  unfold WorkerManager.handleWorkerFailure, WorkerManager.setTimeout, Alerts.alertAdmin.
  run_monad. by destruct (maxRestarts cfg <=? WorkerManager.get_restartCount name w).
Qed.

Lemma restartWorker_running (name : string) (pid : Z) (w : World) :
  workers w !! name = Some pid →
  WorkerManager.get_restartCount name w < maxRestarts cfg →
  WorkerManager.restartWorker cfg name w
  = (Normal tt,
     set_timers (timers w ++ [WorkerManager.flat_timer cfg name w])
       (set_workers (delete name (workers w))
          (set_trace (trace w ++ [Kill name pid]) w))).
Proof.
  intros Hpid Hlt.
  unfold WorkerManager.restartWorker, WorkerManager.setTimeout, WorkerManager.flat_timer.
  run_monad. by rewrite (proj2 (Z.leb_gt _ _) Hlt), Hpid.
Qed.

(** X7. A restart request for a running worker kills its process; when
    the exit of the killed process is then handled (exit code [null]),
    the failure handler schedules a restart of its own.  Two timers are
    then pending for the worker: one with the flat delay and one with
    the doubled delay. *)
Theorem restart_of_running_worker_schedules_twice
    (name : string) (config : WorkerConfig) (pid : Z) (w : World) :
  workers w !! name = Some pid →
  WorkerManager.get_restartCount name w < maxRestarts cfg →
  WorkerManager.pending name
    (WorkerManager.onExit cfg name config None
       (WorkerManager.restartWorker cfg name w).2).2
  = WorkerManager.pending name w
    ++ [WorkerManager.flat_timer cfg name w;
        WorkerManager.backoff_timer cfg name config w].
Proof.
  intros Hpid Hlt.
  rewrite (restartWorker_running name pid w Hpid Hlt). cbn [snd].
  rewrite onExit_run. rewrite bool_decide_false by done.
  rewrite handleWorkerFailure_schedules by done.
  unfold WorkerManager.pending. simpl.
  rewrite <- app_assoc, filter_app. f_equal. simpl.
  rewrite filter_cons_True by done. rewrite filter_cons_True by done.
  by rewrite filter_nil.
Qed.

(** X8. A restart request for a worker that [CONFIG.workers] does not
    know still schedules a timer; its callback throws when it reads the
    path of the missing configuration, before the count is recorded, so
    such requests never use up the restart budget. *)
Theorem restart_of_unknown_worker_never_counts (name : string) (w : World) :
  CONFIG_workers w !! name = None →
  WorkerManager.get_restartCount name w < maxRestarts cfg →
  timers (WorkerManager.restartWorker cfg name w).2
  = timers w ++ [WorkerManager.flat_timer cfg name w]
  ∧ ∀ w1 : World,
      ∃ e : string,
        WorkerManager.fireTimer (WorkerManager.flat_timer cfg name w) w1 = (Throw e, w1).
Proof.
  intros Hnone Hlt. split.
  - destruct (restartWorker_schedules cfg name w Hlt) as (w' & -> & Ht & _). done.
  - intros w1. unfold WorkerManager.fireTimer, WorkerManager.flat_timer. simpl.
    rewrite Hnone. simpl. by eexists.
Qed.

End ManagerProperties.

Section BurstProperties.

Variable cfg : HealdecConfig.

Lemma run_app (s1 s2 : list Run.Action) (w : World) :
  Run.run cfg (s1 ++ s2) w
  = match Run.run cfg s1 w with
    | Some w' => Run.run cfg s2 w'
    | None => None
    end.
Proof.
  revert w. induction s1 as [|a s1 IH]; intros w; simpl; [done|].
  destruct (Run.perform cfg a w); [apply IH | done].
Qed.

Lemma set_timers_id (w : World) : set_timers (timers w) w = w.
Proof. by destruct w. Qed.

Lemma failures_run (name : string) (config : WorkerConfig) (k : nat) (w : World) :
  WorkerManager.get_restartCount name w < maxRestarts cfg →
  Run.run cfg (replicate k (Run.Failure name config)) w
  = Some (set_timers
            (timers w ++ replicate k (WorkerManager.backoff_timer cfg name config w)) w).
Proof.
  revert w. induction k as [|k IH]; intros w Hlt.
  - simpl. by rewrite app_nil_r, set_timers_id.
  - cbn [replicate Run.run Run.perform].
    rewrite handleWorkerFailure_schedules by done. cbn [snd].
    rewrite IH by done. simpl. unfold set_timers. simpl.
    by rewrite <- app_assoc.
Qed.

Lemma fireTimer_run (t : Timer) (c : WorkerConfig) (w : World) :
  t_config t = Some c →
  ∃ w' : World,
    WorkerManager.fireTimer t w = (Normal tt, w')
    ∧ timers w' = timers w
    ∧ now w' = now w
    ∧ restartCounts w' = <[t_name t := t_restartCount t + 1]> (restartCounts w)
    ∧ length (Lifecycle.spawned w') = S (length (Lifecycle.spawned w)).
Proof.
  intros Hc. unfold WorkerManager.fireTimer. rewrite Hc.
  unfold mbind at 1, M_bind at 1. rewrite startWorker_run. unfold modify.
  eexists. split; [reflexivity|]. simpl. repeat split.
  unfold Lifecycle.spawned. simpl. rewrite List.filter_app, length_app. simpl. lia.
Qed.

Lemma fires_run
    (t : Timer) (c : WorkerConfig) (k : nat) (earlier : list Timer) (w : World) :
  t_config t = Some c →
  t_due t <= now w →
  timers w = earlier ++ replicate k t →
  ∃ w' : World,
    Run.run cfg (replicate k (Run.Fire (length earlier))) w = Some w'
    ∧ timers w' = earlier
    ∧ length (Lifecycle.spawned w') = (length (Lifecycle.spawned w) + k)%nat
    ∧ ((0 < k)%nat →
       WorkerManager.get_restartCount (t_name t) w' = t_restartCount t + 1).
Proof.
  intros Hc. revert w. induction k as [|k IH]; intros w Hdue Htimers.
  - exists w. simpl in *. rewrite app_nil_r in Htimers.
    repeat split; [done | lia | lia].
  - cbn [replicate Run.run Run.perform]. rewrite Htimers. cbn [replicate].
    rewrite list_lookup_middle by done. rewrite bool_decide_true by done.
    rewrite delete_middle.
    destruct (fireTimer_run t c (set_timers (earlier ++ replicate k t) w) Hc)
      as (w1 & Hfire & Ht1 & Hnow1 & Hcounts1 & Hspawn1).
    rewrite Hfire. cbn [snd].
    destruct (IH w1) as (w' & Hrun & Ht' & Hspawn' & Hcount').
    { by rewrite Hnow1. }
    { by rewrite Ht1. }
    exists w'. split; [done|]. split; [done|]. split.
    + rewrite Hspawn', Hspawn1. unfold Lifecycle.spawned. simpl. lia.
    + intros _. destruct k as [|k].
      * simpl in Hrun. injection Hrun as <-.
        unfold WorkerManager.get_restartCount. rewrite Hcounts1.
        by rewrite lookup_insert_eq.
      * apply Hcount'. lia.
Qed.

(** X9. The restart budget counts bursts, not restarts: when a worker
    whose count is below the maximum is reported failed [n] times before
    any of the timers of these reports elapses, all [n] timers later
    start the worker, and the count goes up by one.  The timers that
    were pending before, of this worker or of others, are left pending. *)
Theorem burst_of_failures_costs_one_restart
    (name : string) (config : WorkerConfig) (n : nat) (w : World) :
  (0 < n)%nat →
  WorkerManager.get_restartCount name w < maxRestarts cfg →
  0 <= restartDelay cfg →
  ∃ w' : World,
    Run.run cfg
      (Cases.burst name config n
         (restartDelay cfg * 2 ^ WorkerManager.get_restartCount name w)
         (length (timers w))) w
    = Some w'
    ∧ length (Lifecycle.spawned w') = (length (Lifecycle.spawned w) + n)%nat
    ∧ WorkerManager.get_restartCount name w' = WorkerManager.get_restartCount name w + 1
    ∧ timers w' = timers w.
Proof.
  intros Hn Hlt Hdelay.
  set (d := restartDelay cfg * 2 ^ WorkerManager.get_restartCount name w).
  assert (0 <= d) as Hd.
  { apply Z.mul_nonneg_nonneg; [done|]. apply Z.pow_nonneg. lia. }
  unfold Cases.burst. rewrite run_app, failures_run by done.
  cbv beta iota. cbn [app Run.run Run.perform].
  rewrite bool_decide_true by done.
  set (t := WorkerManager.backoff_timer cfg name config w).
  destruct (fires_run t config n (timers w)
              (set_now (now (set_timers (timers w ++ replicate n t) w) + d)
                 (set_timers (timers w ++ replicate n t) w)))
    as (w' & Hrun & Ht & Hspawn & Hcount); [done| |done|].
  { subst t d. simpl. lia. }
  exists w'. split; [done|]. split; [done|]. split; [|done].
  by apply Hcount.
Qed.

End BurstProperties.

(** X10. The exit handler marks the worker unhealthy in the registry but
    leaves its process in [this.workers]: for a worker that was started
    and has exited, whatever the exit code, the probe still finds a
    process and its [processRunning] check passes. *)
Theorem exited_worker_still_counts_as_running
    `{Collaborators} (cfg : HealdecConfig) (name : string) (c config : WorkerConfig)
    (code : option Z) (w : World) :
  let exited :=
    (WorkerManager.onExit cfg name config code
       (WorkerManager.startWorker name (Some c) w).2).2 in
  Registry.checkWorkerHealth name exited = false
  ∧ ∃ h : Healdec.Health,
      Healdec.checkWorkerHealth name exited = (Normal h, exited)
      ∧ Healdec.processRunning (Healdec.checks h) = true.
Proof.
  intros exited.
  assert (workers exited !! name = Some (nextPid w)
          ∧ healthChecks exited !! name = Some false) as [Hprocess Hhealth].
  { subst exited. rewrite startWorker_run, onExit_run. cbn [snd].
    destruct (bool_decide (code = Some 0)).
    - simpl. by rewrite !lookup_insert_eq.
    - match goal with
      | |- context [WorkerManager.handleWorkerFailure cfg name config ?x] =>
          destruct (handleWorkerFailure_frame cfg name config x) as (-> & -> & _)
      end.
      simpl. by rewrite !lookup_insert_eq. }
  split.
  - unfold Registry.checkWorkerHealth. by rewrite Hhealth.
  - cbv beta iota zeta delta [Healdec.checkWorkerHealth mbind M_bind mret M_ret gets].
    eexists. split; [reflexivity|]. simpl. rewrite Hprocess.
    by apply bool_decide_eq_true.
Qed.

Lemma startWorkers_starts_the_enabled_workers_witness :
  ∃ w' : World,
    Lifecycle.startWorkers Cases.configured_entries Cases.configured = (Normal tt, w')
    ∧ (∀ (name : string) (c : WorkerConfig),
         CONFIG_workers Cases.configured !! name = Some c → enabled c = true →
         is_Some (workers w' !! name) ∧ Registry.checkWorkerHealth name w' = true)
    ∧ (∀ name : string,
         (∀ c, CONFIG_workers Cases.configured !! name = Some c → enabled c = false) →
         workers w' !! name = workers Cases.configured !! name
         ∧ healthChecks w' !! name = healthChecks Cases.configured !! name)
    ∧ length (Lifecycle.spawned w')
      = (length (Lifecycle.spawned Cases.configured)
         + length (Lifecycle.enabled_names Cases.configured_entries))%nat.
Proof.
  apply (startWorkers_starts_the_enabled_workers Cases.configured_entries Cases.configured).
  unfold Lifecycle.Object_entries.
  assert (map_to_list (CONFIG_workers Cases.configured)
          = [("ethereum", Cases.ethereum); ("farcaster", Scenario.farcaster);
             ("reddit", Cases.reddit)]) as -> by (vm_compute; reflexivity).
  symmetry.
  apply (Permutation_cons_append
           [("farcaster", Scenario.farcaster); ("reddit", Cases.reddit)]
           ("ethereum", Cases.ethereum)).
Defined.

Lemma stopAllWorkers_keeps_pending_restarts_witness :
  ∃ w1 : World,
    Lifecycle.stopAllWorkers [("ethereum", 2)] Cases.restarting = (Normal tt, w1)
    ∧ workers w1 = ∅
    ∧ (∀ (name : string) (pid : Z),
         workers Cases.restarting !! name = Some pid → Kill name pid ∈ trace w1)
    ∧ timers w1 = timers Cases.restarting
    ∧ restartCounts w1 = restartCounts Cases.restarting
    ∧ workers (WorkerManager.fireTimer
                 (WorkerManager.flat_timer default_healdec "farcaster" Cases.started) w1).2
      !! t_name (WorkerManager.flat_timer default_healdec "farcaster" Cases.started)
      = Some (nextPid Cases.restarting).
Proof.
  apply (stopAllWorkers_keeps_pending_restarts [("ethereum", 2)] Cases.restarting
           (WorkerManager.flat_timer default_healdec "farcaster" Cases.started)
           Scenario.farcaster).
  - unfold Lifecycle.Map_entries.
    assert (map_to_list (workers Cases.restarting) = [("ethereum", 2)]) as ->
      by (vm_compute; reflexivity).
    reflexivity.
  - assert (timers Cases.restarting
            = [WorkerManager.flat_timer default_healdec "farcaster" Cases.started]) as ->
      by (vm_compute; reflexivity).
    constructor.
  - vm_compute. reflexivity.
Defined.

Lemma restart_of_running_worker_schedules_twice_witness :
  WorkerManager.pending "farcaster"
    (WorkerManager.onExit default_healdec "farcaster" Scenario.farcaster None
       (WorkerManager.restartWorker default_healdec "farcaster" Cases.started).2).2
  = WorkerManager.pending "farcaster" Cases.started
    ++ [WorkerManager.flat_timer default_healdec "farcaster" Cases.started;
        WorkerManager.backoff_timer default_healdec "farcaster" Scenario.farcaster
          Cases.started].
Proof.
  apply (restart_of_running_worker_schedules_twice default_healdec "farcaster"
           Scenario.farcaster 1 Cases.started).
  - vm_compute. reflexivity.
  - vm_compute. reflexivity.
Defined.

Lemma restart_of_unknown_worker_never_counts_witness :
  timers (WorkerManager.restartWorker default_healdec "reddit" Scenario.world0).2
  = timers Scenario.world0 ++ [WorkerManager.flat_timer default_healdec "reddit" Scenario.world0]
  ∧ ∀ w1 : World,
      ∃ e : string,
        WorkerManager.fireTimer
          (WorkerManager.flat_timer default_healdec "reddit" Scenario.world0) w1
        = (Throw e, w1).
Proof.
  apply (restart_of_unknown_worker_never_counts default_healdec "reddit" Scenario.world0).
  - vm_compute. reflexivity.
  - vm_compute. reflexivity.
Defined.

Lemma burst_of_failures_costs_one_restart_witness :
  ∃ w' : World,
    Run.run default_healdec
      (Cases.burst "farcaster" Scenario.farcaster 10
         (restartDelay default_healdec
          * 2 ^ WorkerManager.get_restartCount "farcaster" Configured.busy)
         (length (timers Configured.busy))) Configured.busy
    = Some w'
    ∧ length (Lifecycle.spawned w')
      = (length (Lifecycle.spawned Configured.busy) + 10)%nat
    ∧ WorkerManager.get_restartCount "farcaster" w'
      = WorkerManager.get_restartCount "farcaster" Configured.busy + 1
    ∧ timers w' = timers Configured.busy.
Proof.
  apply (burst_of_failures_costs_one_restart default_healdec "farcaster" Scenario.farcaster
           10 Configured.busy).
  - lia.
  - vm_compute. reflexivity.
  - vm_compute. discriminate.
Defined.

(** ** The doubles of the test-suite *)

Lemma registry_last_write_wins_aux
    (calls : list (string * bool)) (workerName : string) (w : World) :
  Registry.checkWorkerHealth workerName (Registry.record_all calls w)
  = default (Registry.checkWorkerHealth workerName w)
            (EngineDouble.last_recorded calls workerName).
Proof.
  revert w. induction calls as [|[n healthy] rest IH]; intros w; [done|].
  cbn [Registry.record_all foldl fst snd EngineDouble.last_recorded].
  change (foldl _ ?w0 rest) with (Registry.record_all rest w0).
  rewrite IH. destruct (EngineDouble.last_recorded rest workerName); [done|].
  unfold Registry.checkWorkerHealth, Registry.setWorkerHealth. simpl.
  destruct (decide (n = workerName)) as [->|Hne].
  - rewrite lookup_insert_eq. simpl. by rewrite orb_false_r.
  - by rewrite lookup_insert_ne.
Qed.

(** X11. The registry keeps the last verdict: after any history of
    [setWorkerHealth] calls, continued by a later one, [checkWorkerHealth]
    answers for each name with the verdict the later history recorded
    last for it, and with its answer after the earlier history when the
    later one does not mention the name. *)
Theorem registry_last_write_wins
    (earlier later : list (string * bool)) (workerName : string) (w : World) :
  Registry.checkWorkerHealth workerName (Registry.record_all (earlier ++ later) w)
  = default (Registry.checkWorkerHealth workerName (Registry.record_all earlier w))
            (EngineDouble.last_recorded later workerName).
Proof.
  unfold Registry.record_all at 1. rewrite foldl_app.
  change (foldl _ ?w0 later) with (Registry.record_all later w0).
  change (foldl _ w earlier) with (Registry.record_all earlier w).
  apply registry_last_write_wins_aux.
Qed.

(** X12. Whatever has been recorded in a new engine, [scanDependencies]
    reports the three workers of its table, in the order farcaster,
    ethereum, solana, each with the verdict recorded last for it and
    unhealthy when none was; other names never appear, and the scan
    changes nothing. *)
Theorem scanDependencies_reports_the_three_workers (calls : list (string * bool)) :
  EngineDouble.scanDependencies (Registry.record_all calls initial_world)
  = (Normal
       (map (λ name,
               EngineDouble.mkScanResult name
                 (default false (EngineDouble.last_recorded calls name)))
            ["farcaster"; "ethereum"; "solana"]),
     Registry.record_all calls initial_world).
Proof.
  unfold EngineDouble.scanDependencies, EngineDouble.mockWorkers.
  cbn [EngineDouble.scan negb map app].
  cbv beta iota delta [mbind M_bind mret M_ret gets].
  cbn [app]. by rewrite !registry_last_write_wins_aux.
Qed.

(** X13. The engine double's [safeUpdate] of a worker of its table
    returns [true] exactly when the update function returns, and in
    both cases leaves the state as the update function left it: its
    rollback restores nothing. *)
Theorem TestDouble_safeUpdate_keeps_failed_update
    (target : string) (updateFn : M unit) (w : World) :
  is_Some (TestDouble.mockWorkers !! target) →
  TestDouble.safeUpdate target updateFn w
  = (Normal match (updateFn w).1 with
            | Normal _ => true
            | Throw _ => false
            end,
     (updateFn w).2).
Proof.
  intros Hknown. unfold TestDouble.safeUpdate, TestDouble.validate, TestDouble.rollback.
  run_monad. rewrite bool_decide_true by done. simpl.
  by destruct (updateFn w) as [[[]|e] w'].
Qed.

Lemma TestDouble_safeUpdate_keeps_failed_update_witness :
  TestDouble.safeUpdate "farcaster" Cases.half_done Scenario.world0
  = (Normal match (Cases.half_done Scenario.world0).1 with
            | Normal _ => true
            | Throw _ => false
            end,
     (Cases.half_done Scenario.world0).2).
Proof.
  apply (TestDouble_safeUpdate_keeps_failed_update "farcaster" Cases.half_done
           Scenario.world0).
  vm_compute. eauto.
Defined.

Lemma ManagerDouble_restartWorker_status (name : string) (st : ManagerDouble.State) :
  ManagerDouble.getWorkerStatus name (ManagerDouble.restartWorker name st)
  = {| ManagerDouble.running := false;
       ManagerDouble.restarts :=
         ManagerDouble.restarts (ManagerDouble.getWorkerStatus name st) + 1 |}.
Proof.
  unfold ManagerDouble.getWorkerStatus, ManagerDouble.restartWorker.
  destruct (ManagerDouble.mock_workers st !! name) as [worker|] eqn:Hworker; simpl.
  - by rewrite lookup_insert_eq, lookup_delete_eq.
  - by rewrite lookup_insert_eq, Hworker.
Qed.

(** X14. The manager double counts every restart and has no maximum:
    after [n] restart requests for a worker its restart count is [n]
    higher, and after the first of them the worker is not running, for
    the double kills the process and never starts a new one. *)
Theorem ManagerDouble_restarts_are_unbounded
    (name : string) (n : nat) (st : ManagerDouble.State) :
  (0 < n)%nat →
  ManagerDouble.getWorkerStatus name (Nat.iter n (ManagerDouble.restartWorker name) st)
  = {| ManagerDouble.running := false;
       ManagerDouble.restarts :=
         ManagerDouble.restarts (ManagerDouble.getWorkerStatus name st) + Z.of_nat n |}.
Proof.
  intros Hn. induction n as [|n IH]; [lia|].
  rewrite Nat.iter_succ, ManagerDouble_restartWorker_status.
  destruct n as [|n].
  - done.
  - rewrite IH by lia. simpl. f_equal. lia.
Qed.

Lemma ManagerDouble_restarts_are_unbounded_witness :
  ManagerDouble.getWorkerStatus "test"
    (Nat.iter 5 (ManagerDouble.restartWorker "test")
       (ManagerDouble.startWorker "test"
          (ManagerDouble.mkConfig true "../workers/test.worker.js") ManagerDouble.fresh))
  = {| ManagerDouble.running := false;
       ManagerDouble.restarts :=
         ManagerDouble.restarts
           (ManagerDouble.getWorkerStatus "test"
              (ManagerDouble.startWorker "test"
                 (ManagerDouble.mkConfig true "../workers/test.worker.js")
                 ManagerDouble.fresh))
         + Z.of_nat 5 |}.
Proof.
  apply (ManagerDouble_restarts_are_unbounded "test" 5).
  lia.
Defined.

(** ** Calls to external services *)

Section Retries.

Variable Response : Type.
Variable answer : nat → completion Response.

Local Abbreviation attempts := (ExternalAPI.attempts Response answer).
Local Abbreviation callExternalAPI := (ExternalAPI.callExternalAPI Response answer).

(** The state after [k] failed attempts, the first of them attempt [i]. *)
Lemma attempts_after_failures
    (url : string) (retries : Z) (k remaining : nat) (i : Z) (s : ExternalAPI.Net) :
  (k ≤ remaining)%nat →
  (∀ j : nat, (j < k)%nat →
     ∃ e, answer (length (ExternalAPI.net_requests s) + j) = Throw e) →
  attempts url retries remaining i s
  = attempts url retries (remaining - k) (i + Z.of_nat k)
      (ExternalAPI.mkNet
         (ExternalAPI.net_requests s ++ replicate k url)
         (ExternalAPI.net_warnings s
          ++ map (λ j, ExternalAPI.failed_attempt j retries) (seqZ i (Z.of_nat k)))
         (ExternalAPI.net_sleeps s
          ++ map (λ j, 1000 * 2 ^ j)
                 (seqZ i (Z.min (Z.of_nat k) (retries - 1 - i))))).
Proof.
  revert remaining i s. induction k as [|k IH]; intros remaining i s Hle Hfail.
  - rewrite Nat.sub_0_r, Z.add_0_r. simpl.
    rewrite (seqZ_nil i (Z.min 0 _)) by lia. simpl.
    rewrite !app_nil_r. by destruct s.
  - destruct remaining as [|remaining]; [lia|].
    cbn [ExternalAPI.attempts]. unfold ExternalAPI.N_try_catch, ExternalAPI.fetch.
    destruct (Hfail 0%nat) as [e He]; [lia|]. rewrite Nat.add_0_r in He. rewrite He.
    unfold mbind at 1, ExternalAPI.N_bind at 1, ExternalAPI.console_warn.
    unfold mbind at 1, ExternalAPI.N_bind at 1.
    rewrite (seqZ_cons i (Z.of_nat (S k))) by lia.
    replace (Z.pred (Z.of_nat (S k))) with (Z.of_nat k) by lia.
    replace (Z.succ i) with (i + 1) by lia.
    replace (i + Z.of_nat (S k)) with (i + 1 + Z.of_nat k) by lia.
    replace (S remaining - S k)%nat with (remaining - k)%nat by lia.
    destruct (i <? retries - 1) eqn:Hi.
    + apply Z.ltb_lt in Hi. unfold ExternalAPI.sleep. cbn [ExternalAPI.net_requests
        ExternalAPI.net_warnings ExternalAPI.net_sleeps].
      rewrite IH; [|lia|].
      * cbn [ExternalAPI.net_requests ExternalAPI.net_warnings ExternalAPI.net_sleeps].
        rewrite (seqZ_cons i (Z.min _ _)) by lia.
        replace (Z.pred (Z.min (Z.of_nat (S k)) (retries - 1 - i)))
          with (Z.min (Z.of_nat k) (retries - 1 - (i + 1))) by lia.
        replace (Z.succ i) with (i + 1) by lia.
        cbn [map replicate]. by rewrite <- !app_assoc.
      * intros j Hj. cbn [ExternalAPI.net_requests]. rewrite length_app. simpl.
        destruct (Hfail (S j)) as [e' He']; [lia|]. exists e'.
        rewrite <- He'. f_equal. lia.
    + apply Z.ltb_ge in Hi. unfold mret, ExternalAPI.N_ret.
      cbn [ExternalAPI.net_requests ExternalAPI.net_warnings ExternalAPI.net_sleeps].
      rewrite IH; [|lia|].
      * cbn [ExternalAPI.net_requests ExternalAPI.net_warnings ExternalAPI.net_sleeps].
        rewrite (seqZ_nil i (Z.min _ _)) by lia.
        rewrite (seqZ_nil (i + 1) (Z.min _ _)) by lia.
        cbn [map replicate]. by rewrite <- !app_assoc.
      * intros j Hj. cbn [ExternalAPI.net_requests]. rewrite length_app. simpl.
        destruct (Hfail (S j)) as [e' He']; [lia|]. exists e'.
        rewrite <- He'. f_equal. lia.
Qed.

(** X15. When every request fails, [callExternalAPI] makes exactly
    [retries] requests, warns once per attempt, waits 1000, 2000, 4000,
    ... milliseconds between attempts but not after the last one, and
    then throws "API call failed after retries".  With [retries] zero or
    negative it throws at once, without a request. *)
Theorem callExternalAPI_gives_up_after_retries
    (url : string) (retries : Z) (s : ExternalAPI.Net) :
  (∀ j : nat, (j < Z.to_nat retries)%nat →
     ∃ e, answer (length (ExternalAPI.net_requests s) + j) = Throw e) →
  callExternalAPI url retries s
  = (Throw "API call failed after retries",
     ExternalAPI.mkNet
       (ExternalAPI.net_requests s ++ replicate (Z.to_nat retries) url)
       (ExternalAPI.net_warnings s
        ++ map (λ j, ExternalAPI.failed_attempt j retries) (seqZ 0 retries))
       (ExternalAPI.net_sleeps s
        ++ map (λ j, 1000 * 2 ^ j) (seqZ 0 (retries - 1)))).
Proof.
  intros Hfail. unfold ExternalAPI.callExternalAPI.
  rewrite (attempts_after_failures url retries (Z.to_nat retries)) by done.
  rewrite Nat.sub_diag. cbn [ExternalAPI.attempts]. unfold ExternalAPI.N_throw.
  f_equal. f_equal.
  - f_equal. f_equal. destruct (Z.le_gt_cases retries 0) as [Hle|Hgt].
    + rewrite !seqZ_nil by lia. done.
    + f_equal. lia.
  - f_equal. f_equal. destruct (Z.le_gt_cases retries 0) as [Hle|Hgt].
    + rewrite !seqZ_nil by lia. done.
    + f_equal. lia.
Qed.

(** X16. When the first [k] requests fail and the next one is answered,
    with [k] below [retries], [callExternalAPI] returns that answer after
    [k + 1] requests, [k] warnings and [k] waits of 1000, 2000, ...
    milliseconds. *)
Theorem callExternalAPI_returns_first_answer
    (url : string) (retries : Z) (k : nat) (r : Response) (s : ExternalAPI.Net) :
  Z.of_nat k < retries →
  (∀ j : nat, (j < k)%nat →
     ∃ e, answer (length (ExternalAPI.net_requests s) + j) = Throw e) →
  answer (length (ExternalAPI.net_requests s) + k) = Normal r →
  callExternalAPI url retries s
  = (Normal r,
     ExternalAPI.mkNet
       (ExternalAPI.net_requests s ++ replicate (S k) url)
       (ExternalAPI.net_warnings s
        ++ map (λ j, ExternalAPI.failed_attempt j retries) (seqZ 0 (Z.of_nat k)))
       (ExternalAPI.net_sleeps s
        ++ map (λ j, 1000 * 2 ^ j) (seqZ 0 (Z.of_nat k)))).
Proof.
  intros Hk Hfail Hanswer. unfold ExternalAPI.callExternalAPI.
  rewrite (attempts_after_failures url retries k) by (done || lia).
  destruct (Z.to_nat retries - k)%nat as [|later] eqn:Hleft; [lia|].
  cbn [ExternalAPI.attempts]. unfold ExternalAPI.N_try_catch, ExternalAPI.fetch.
  cbn [ExternalAPI.net_requests ExternalAPI.net_warnings ExternalAPI.net_sleeps].
  rewrite length_app, length_replicate, Hanswer.
  f_equal. f_equal.
  - rewrite <- app_assoc. f_equal. change [url] with (replicate 1 url).
    rewrite <- replicate_add. f_equal. lia.
  - f_equal. f_equal. f_equal. lia.
Qed.

End Retries.

Lemma callExternalAPI_gives_up_after_retries_witness :
  ExternalAPI.callExternalAPI string ExternalAPI.flaky "https://api.example/health" 3
    ExternalAPI.quiet
  = (Throw "API call failed after retries",
     ExternalAPI.mkNet
       (ExternalAPI.net_requests ExternalAPI.quiet
        ++ replicate (Z.to_nat 3) "https://api.example/health")
       (ExternalAPI.net_warnings ExternalAPI.quiet
        ++ map (λ j, ExternalAPI.failed_attempt j 3) (seqZ 0 3))
       (ExternalAPI.net_sleeps ExternalAPI.quiet
        ++ map (λ j, 1000 * 2 ^ j) (seqZ 0 (3 - 1)))).
Proof.
  apply (callExternalAPI_gives_up_after_retries string ExternalAPI.flaky
           "https://api.example/health" 3 ExternalAPI.quiet).
  intros j Hj. exists "ECONNRESET". simpl.
  unfold ExternalAPI.flaky. destruct (Nat.ltb_spec j 3) as [_|Hge]; [reflexivity|].
  change (Z.to_nat 3) with 3%nat in Hj. lia.
Defined.

Lemma callExternalAPI_returns_first_answer_witness :
  ExternalAPI.callExternalAPI string ExternalAPI.flaky "https://api.example/health" 5
    ExternalAPI.quiet
  = (Normal "200 OK",
     ExternalAPI.mkNet
       (ExternalAPI.net_requests ExternalAPI.quiet
        ++ replicate 4 "https://api.example/health")
       (ExternalAPI.net_warnings ExternalAPI.quiet
        ++ map (λ j, ExternalAPI.failed_attempt j 5) (seqZ 0 (Z.of_nat 3)))
       (ExternalAPI.net_sleeps ExternalAPI.quiet
        ++ map (λ j, 1000 * 2 ^ j) (seqZ 0 (Z.of_nat 3)))).
Proof.
  apply (callExternalAPI_returns_first_answer string ExternalAPI.flaky
           "https://api.example/health" 5 3 "200 OK" ExternalAPI.quiet).
  - lia.
  - intros j Hj. exists "ECONNRESET". simpl.
    unfold ExternalAPI.flaky. destruct (Nat.ltb_spec j 3) as [_|Hge]; [reflexivity | lia].
  - reflexivity.
Defined.

(** ** More on escalation, the probe and process handles *)

Section Escalation.

Variable cfg : HealdecConfig.

(** X17. Escalation is not deduplicated: once the restart count of a
    worker has reached the maximum, every further failure report raises
    one more alert, so [n] reports leave [n] new alerts, and none of them
    schedules a restart or changes the count. *)
Theorem every_report_at_maximum_raises_an_alert
    (name : string) (config : WorkerConfig) (n : nat) (w : World) :
  maxRestarts cfg <= WorkerManager.get_restartCount name w →
  ∃ w' : World,
    Run.run cfg (replicate n (Run.Failure name config)) w = Some w'
    ∧ alerts w' = alerts w ++ replicate n (WorkerManager.max_restarts_alert name (now w))
    ∧ timers w' = timers w
    ∧ restartCounts w' = restartCounts w.
Proof.
  revert w. induction n as [|n IH]; intros w Hfull.
  - exists w. simpl. by rewrite app_nil_r.
  - cbn [replicate Run.run Run.perform].
    destruct (handleWorkerFailure_gives_up cfg name config w Hfull)
      as (w1 & Hrun & Ht & Hc & Ha).
    rewrite Hrun. cbn [snd].
    assert (now w1 = now w) as Hnow.
    { pose proof (handleWorkerFailure_frame cfg name config w) as (_ & _ & Hn).
      by rewrite Hrun in Hn. }
    destruct (IH w1) as (w' & Hrest & Ha' & Ht' & Hc').
    { unfold WorkerManager.get_restartCount in *. by rewrite Hc. }
    exists w'. split; [done|].
    rewrite Ha', Ht', Hc', Ha, Ht, Hc, Hnow. by rewrite <- app_assoc.
Qed.

End Escalation.

Lemma every_report_at_maximum_raises_an_alert_witness :
  ∃ w' : World,
    Run.run default_healdec (replicate 4 (Run.Failure "w2" Scenario.farcaster))
      Scenario.exhausted = Some w'
    ∧ alerts w'
      = alerts Scenario.exhausted
        ++ replicate 4 (WorkerManager.max_restarts_alert "w2" (now Scenario.exhausted))
    ∧ timers w' = timers Scenario.exhausted
    ∧ restartCounts w' = restartCounts Scenario.exhausted.
Proof.
  apply (every_report_at_maximum_raises_an_alert default_healdec "w2" Scenario.farcaster 4
           Scenario.exhausted).
  vm_compute. discriminate.
Defined.

(** X18. The freshness window and the error threshold are strict: a
    worker whose last successful run is 300000 ms old or older is
    unhealthy, and so is a worker whose error rate is 5% or more,
    whatever the other checks say. *)
Theorem probe_thresholds_are_strict `{Collaborators} (workerName : string) (w : World) :
  300000 <= now w - getLastSuccessfulRun workerName w
  ∨ (5 # 100 <= getErrorRate workerName w)%Q →
  ∃ h : Healdec.Health,
    Healdec.checkWorkerHealth workerName w = (Normal h, w)
    ∧ Healdec.healthy h = false.
Proof.
  intros Hlate.
  cbv beta iota zeta delta [Healdec.checkWorkerHealth mbind M_bind mret M_ret gets].
  eexists. split; [reflexivity|]. simpl.
  destruct Hlate as [Hstale|Hnoisy].
  - rewrite (proj2 (Z.ltb_ge _ _) Hstale). simpl. by rewrite andb_false_r.
  - assert (Healdec.Qlt_bool (getErrorRate workerName w) (5 # 100) = false) as ->.
    { apply not_true_iff_false. rewrite Qlt_bool_iff. by apply Qle_not_lt. }
    simpl. by rewrite !andb_false_r.
Qed.

Lemma probe_thresholds_are_strict_witness :
  ∃ h : Healdec.Health,
    @Healdec.checkWorkerHealth Scenario.demo "noisy" Scenario.probed
    = (Normal h, Scenario.probed)
    ∧ Healdec.healthy h = false.
Proof.
  apply (@probe_thresholds_are_strict Scenario.demo "noisy" Scenario.probed).
  right. vm_compute. discriminate.
Defined.

(** X19. [startWorker] does not stop the process it replaces: when the
    worker already has a process, the new one takes its place in
    [this.workers] and the old one is not killed, neither then nor by a
    later [stopAllWorkers], which kills the new one. *)
Theorem startWorker_orphans_running_process
    (name : string) (c : WorkerConfig) (old : Z) (running : list (string * Z)) (w : World) :
  workers w !! name = Some old →
  old ≠ nextPid w →
  Kill name old ∉ trace w →
  Lifecycle.Map_entries (WorkerManager.startWorker name (Some c) w).2 running →
  (Kill name old
     ∉ trace (Lifecycle.stopAllWorkers running
                (WorkerManager.startWorker name (Some c) w).2).2)
  ∧ (Kill name (nextPid w)
       ∈ trace (Lifecycle.stopAllWorkers running
                  (WorkerManager.startWorker name (Some c) w).2).2).
Proof.
  intros Hold Hfresh Hnot Hrunning.
  unfold Lifecycle.Map_entries in Hrunning.
  rewrite startWorker_run in *. cbn [snd] in *.
  unfold Lifecycle.stopAllWorkers, mbind, M_bind.
  rewrite kill_all_run. unfold modify. simpl in *.
  assert (∀ pid, (name, pid) ∈ running ↔ pid = nextPid w) as Hentry.
  { intros pid. rewrite Hrunning, elem_of_map_to_list, lookup_insert_eq.
    split; [by intros [= <-] | by intros ->]. }
  split.
  - rewrite !elem_of_app. intros [[Hin|Hin]|Hin].
    + done.
    + apply list_elem_of_singleton in Hin. discriminate.
    + apply list_elem_of_fmap in Hin as ([n pid] & [= -> ->] & Hin).
      apply Hentry in Hin. done.
  - rewrite !elem_of_app. right.
    apply list_elem_of_fmap. exists (name, nextPid w). split; [done|]. by apply Hentry.
Qed.

Lemma startWorker_orphans_running_process_witness :
  (Kill "farcaster" 1
     ∉ trace (Lifecycle.stopAllWorkers [("farcaster", 3); ("ethereum", 2)]
                (WorkerManager.startWorker "farcaster" (Some Scenario.farcaster)
                   Cases.started).2).2)
  ∧ (Kill "farcaster" (nextPid Cases.started)
       ∈ trace (Lifecycle.stopAllWorkers [("farcaster", 3); ("ethereum", 2)]
                  (WorkerManager.startWorker "farcaster" (Some Scenario.farcaster)
                     Cases.started).2).2).
Proof.
  apply (startWorker_orphans_running_process "farcaster" Scenario.farcaster 1
           [("farcaster", 3); ("ethereum", 2)] Cases.started).
  - vm_compute. reflexivity.
  - vm_compute. discriminate.
  - assert (trace Cases.started
            = [Spawn "farcaster" "../workers/farcaster.worker.js" 1;
               Spawn "ethereum" "../workers/ethereum.worker.js" 2]) as ->
      by (vm_compute; reflexivity).
    intros Hin. apply elem_of_cons in Hin as [Hin|Hin]; [discriminate|].
    apply list_elem_of_singleton in Hin. discriminate.
  - unfold Lifecycle.Map_entries.
    assert (map_to_list (workers (WorkerManager.startWorker "farcaster"
                                    (Some Scenario.farcaster) Cases.started).2)
            = [("ethereum", 2); ("farcaster", 3)]) as ->
      by (vm_compute; reflexivity).
    apply Permutation_swap.
Defined.

(** ** The processing loop of a worker *)

Section WorkerLoop.

Context `{Worker.Hooks}.

Lemma processItem_frame (item : string) (s : Worker.St) :
  Worker.running (Worker.processItem item s).2 = Worker.running s
  ∧ Worker.health_reports (Worker.processItem item s).2 = Worker.health_reports s.
Proof.
  unfold Worker.processItem, Worker.W_try_catch, Worker.observe, Worker.logError,
    Worker.console_error, mbind, Worker.W_bind.
  destruct (Worker.doWork_outcome item s) as [[]|e]; simpl; [done|].
  by destruct (Worker.logError_error item e _).
Qed.

Lemma processAll_frame (items : list string) (s : Worker.St) :
  Worker.running (Worker.processAll items s).2 = Worker.running s
  ∧ Worker.health_reports (Worker.processAll items s).2 = Worker.health_reports s.
Proof.
  revert s. induction items as [|item rest IH]; intros s; [done|].
  cbn [Worker.processAll]. unfold mbind, Worker.W_bind.
  destruct (processItem_frame item s) as [Hr Hh].
  destruct (Worker.processItem item s) as [[[]|e] s1]; simpl in *.
  - destruct (IH s1) as [Hr' Hh']. by rewrite Hr', Hh', Hr, Hh.
  - done.
Qed.

(** With an error log that works, the loop over the items gets through
    all of them. *)
Lemma processAll_run (items : list string) (s : Worker.St) :
  (∀ id e s0, Worker.logError_error id e s0 = None) →
  ∃ (s' : Worker.St) (new : list (string * string)),
    Worker.processAll items s = (Normal tt, s')
    ∧ Worker.logged_errors s' = Worker.logged_errors s ++ new
    ∧ sublist new.*1 items.
Proof.
  intros Hlog. revert s. induction items as [|item rest IH]; intros s.
  - exists s, []. simpl. by rewrite app_nil_r.
  - cbn [Worker.processAll]. unfold mbind at 1, Worker.W_bind at 1.
    unfold Worker.processItem, Worker.W_try_catch, Worker.observe.
    destruct (Worker.doWork_outcome item s) as [[]|e].
    + destruct (IH s) as (s' & new & -> & Hnew & Hsub).
      exists s', new. split; [done|]. split; [done|]. by apply sublist_cons.
    + unfold mbind, Worker.W_bind, Worker.console_error, Worker.logError.
      rewrite Hlog.
      match goal with
      | |- context [Worker.processAll rest ?x] =>
          destruct (IH x) as (s' & new & -> & Hnew & Hsub)
      end.
      exists s', ((item, e) :: new). split; [done|]. simpl in *.
      split; [by rewrite Hnew, <- app_assoc | by apply sublist_skip].
Qed.

(** X20. The failure of items does not show in the worker's health:
    when the worker runs, its items are fetched and its error log and
    metadata update work, a tick reports healthy however many of the
    items failed, even all of them.  The errors logged are for items of
    the batch, in the order of the batch. *)
Theorem failed_items_leave_the_worker_healthy (items : list string) (s : Worker.St) :
  Worker.running s = true →
  Worker.shouldRun_outcome s = Normal true →
  Worker.fetchWorkItems_outcome s = Normal items →
  (∀ id e s0, Worker.logError_error id e s0 = None) →
  (∀ s0, Worker.updateProcessingMetadata_error s0 = None) →
  ∃ (s' : Worker.St) (new : list (string * string)),
    Worker.tick s = (Normal tt, s')
    ∧ Worker.health_reports s' = Worker.health_reports s ++ ["healthy"]
    ∧ Worker.logged_errors s' = Worker.logged_errors s ++ new
    ∧ sublist new.*1 items.
Proof.
  intros Hrunning Hgo Hitems Hlog Hupdate.
  unfold Worker.tick. rewrite Hrunning. cbn [negb].
  unfold Worker.W_try_catch, Worker.observe.
  unfold mbind at 1, Worker.W_bind at 1. rewrite Hgo. cbn [negb].
  unfold mbind at 1, Worker.W_bind at 1. rewrite Hitems.
  unfold mbind at 1, Worker.W_bind at 1.
  destruct (processAll_run items s Hlog) as (s1 & new & Hrun & Hnew & Hsub).
  destruct (processAll_frame items s) as [_ Hreports]. rewrite Hrun in *. cbn [snd] in *.
  unfold mbind, Worker.W_bind, Worker.updateProcessingMetadata, Worker.reportHealth.
  rewrite Hupdate. eexists _, new. split; [reflexivity|]. simpl.
  by rewrite Hreports.
Qed.

(** X21. A tick never throws and reports to Healdec at most once: it
    leaves the reports as they were, or adds one "healthy", or adds one
    "unhealthy"; a worker that is not running reports nothing and does
    nothing. *)
Theorem tick_reports_at_most_once (s : Worker.St) :
  ∃ s' : Worker.St,
    Worker.tick s = (Normal tt, s')
    ∧ (Worker.running s = false → s' = s)
    ∧ (Worker.health_reports s' = Worker.health_reports s
       ∨ Worker.health_reports s' = Worker.health_reports s ++ ["healthy"]
       ∨ Worker.health_reports s' = Worker.health_reports s ++ ["unhealthy"]).
Proof.
  unfold Worker.tick. destruct (Worker.running s) eqn:Hrunning; cbn [negb].
  2: { exists s. auto. }
  unfold Worker.W_try_catch, Worker.observe.
  unfold mbind at 1, Worker.W_bind at 1.
  destruct (Worker.shouldRun_outcome s) as [[]|e]; cbn [negb].
  - unfold mbind at 1, Worker.W_bind at 1.
    destruct (Worker.fetchWorkItems_outcome s) as [items|e].
    + unfold mbind at 1, Worker.W_bind at 1.
      destruct (processAll_frame items s) as [_ Hreports].
      destruct (Worker.processAll items s) as [[[]|e] s1]; cbn [snd] in *.
      * unfold mbind at 1, Worker.W_bind at 1, Worker.updateProcessingMetadata.
        destruct (Worker.updateProcessingMetadata_error s1).
        { eexists. split; [reflexivity|]. split; [done|]. simpl. rewrite Hreports. auto. }
        { eexists. split; [reflexivity|]. split; [done|]. simpl. rewrite Hreports. auto. }
      * eexists. split; [reflexivity|]. split; [done|]. simpl. rewrite Hreports. auto.
    + eexists. split; [reflexivity|]. split; [done|]. simpl. auto.
  - eexists. split; [reflexivity|]. split; [done|]. simpl. auto.
  - eexists. split; [reflexivity|]. split; [done|]. simpl. auto.
Qed.

End WorkerLoop.

Lemma failed_items_leave_the_worker_healthy_witness :
  ∃ (s' : Worker.St) (new : list (string * string)),
    @Worker.tick Worker.hapless Worker.idle = (Normal tt, s')
    ∧ Worker.health_reports s' = Worker.health_reports Worker.idle ++ ["healthy"]
    ∧ Worker.logged_errors s' = Worker.logged_errors Worker.idle ++ new
    ∧ sublist new.*1 ["cast-1"; "cast-2"; "cast-3"].
Proof.
  apply (@failed_items_leave_the_worker_healthy Worker.hapless
           ["cast-1"; "cast-2"; "cast-3"] Worker.idle).
  - reflexivity.
  - reflexivity.
  - reflexivity.
  - intros id e s0. reflexivity.
  - intros s0. reflexivity.
Defined.

(** ** The restart budget in a configured orchestrator *)

Section ConfiguredBudget.

Variable cfg : HealdecConfig.

Lemma run_steps (script : list Run.Action) (w w' : World) :
  Run.run cfg script w = Some w' → rtc (WorkerManager.step cfg) w w'.
Proof.
  revert w. induction script as [|a script IH]; intros w; simpl.
  - by intros [= <-].
  - destruct (Run.perform cfg a w) as [w1|] eqn:Ha; [|done].
    intros Hrun. eapply rtc_l; [by apply (perform_step cfg a)|]. by apply IH.
Qed.

Lemma fresh_within_budget (w : World) :
  Supervisor.fresh w → WorkerManager.within_budget cfg w.
Proof.
  intros [Hcounts Htimers]. split.
  - intros name c. by rewrite Hcounts, lookup_empty.
  - rewrite Htimers. constructor.
Qed.

(** A step around the Worker Manager keeps the restart budget: the
    calls that are not steps of the manager itself touch neither the
    counts nor the timers. *)
Lemma supervisor_step_within_budget (w w' : World) :
  Supervisor.step cfg w w' →
  WorkerManager.within_budget cfg w →
  WorkerManager.within_budget cfg w'.
Proof.
  intros Hstep Hinv.
  destruct Hstep as [w w' Hmanager | name config w | entries w Hentries
                    | running w Hrunning | name healthy w | workers w].
  - by eapply step_within_budget.
  - by rewrite startWorker_run.
  - destruct (startWorkers_run entries w) as (w' & -> & _ & _ & _ & _ & Hc & Ht).
    unfold WorkerManager.within_budget. simpl. by rewrite Hc, Ht.
  - unfold Lifecycle.stopAllWorkers, mbind, M_bind. by rewrite kill_all_run.
  - done.
  - done.
Qed.

Lemma supervisor_reachable_within_budget (w : World) :
  Supervisor.reachable cfg w → WorkerManager.within_budget cfg w.
Proof.
  intros (w0 & Hfresh & Hsteps).
  apply fresh_within_budget in Hfresh.
  induction Hsteps as [w0|w0 w1 w2 Hstep Hsteps IH]; [done|].
  apply IH. by eapply supervisor_step_within_budget.
Qed.

(** C3 (amended). In every state the Worker Manager can reach from its
    construction, in an orchestrator with any configuration, the restart
    count of a worker lies between zero and the configured maximum.
    Once it has reached the maximum, a failure report schedules no
    timer, leaves the count as it is and raises a critical alert whose
    message is "Max restart limit reached"; a restart request schedules
    no timer either.  There is no worker state to become Failed. *)
Theorem restart_count_never_exceeds_maximum
    (name : string) (config : WorkerConfig) (w : World) :
  0 <= maxRestarts cfg →
  Supervisor.reachable cfg w →
  0 <= WorkerManager.get_restartCount name w <= maxRestarts cfg
  ∧ (WorkerManager.get_restartCount name w = maxRestarts cfg →
     (∃ w' : World,
        WorkerManager.handleWorkerFailure cfg name config w = (Normal tt, w')
        ∧ timers w' = timers w
        ∧ restartCounts w' = restartCounts w
        ∧ alerts w' = alerts w ++ [WorkerManager.max_restarts_alert name (now w)])
     ∧ timers (WorkerManager.restartWorker cfg name w).2 = timers w
     ∧ restartCounts (WorkerManager.restartWorker cfg name w).2 = restartCounts w).
Proof.
  intros Hmax Hreach.
  destruct (get_restartCount_within_budget cfg name w
              (supervisor_reachable_within_budget w Hreach)) as [Hnonneg Hle].
  split; [auto|]. intros Hfull. split.
  - apply handleWorkerFailure_gives_up. lia.
  - rewrite restartWorker_gives_up by lia. done.
Qed.

End ConfiguredBudget.

Lemma configured_entries_listed :
  Lifecycle.Object_entries Cases.configured Cases.configured_entries.
Proof.
  unfold Lifecycle.Object_entries.
  assert (map_to_list (CONFIG_workers Cases.configured)
          = [("ethereum", Cases.ethereum); ("farcaster", Scenario.farcaster);
             ("reddit", Cases.reddit)]) as -> by (vm_compute; reflexivity).
  symmetry.
  apply (Permutation_cons_append
           [("farcaster", Scenario.farcaster); ("reddit", Cases.reddit)]
           ("ethereum", Cases.ethereum)).
Qed.

(** The orchestrator configured with three workers, started, whose
    farcaster worker was then restarted three times: once on request
    and twice after a crash. *)
Lemma worn_out_reachable : Supervisor.reachable default_healdec Configured.worn_out.
Proof.
  exists Cases.configured. split; [by split|].
  eapply rtc_l.
  - exact (Supervisor.step_startWorkers default_healdec Cases.configured_entries
             Cases.configured configured_entries_listed).
  - eapply (rtc_subrel (WorkerManager.step default_healdec)).
    + intros w w'. apply Supervisor.step_manager.
    + apply (run_steps default_healdec Configured.three_restarts).
      vm_compute. reflexivity.
Qed.

Lemma restart_count_never_exceeds_maximum_witness :
  0 <= WorkerManager.get_restartCount "farcaster" Configured.worn_out
    <= maxRestarts default_healdec
  ∧ (WorkerManager.get_restartCount "farcaster" Configured.worn_out
     = maxRestarts default_healdec →
     (∃ w' : World,
        WorkerManager.handleWorkerFailure default_healdec "farcaster" Scenario.farcaster
          Configured.worn_out = (Normal tt, w')
        ∧ timers w' = timers Configured.worn_out
        ∧ restartCounts w' = restartCounts Configured.worn_out
        ∧ alerts w' = alerts Configured.worn_out
                      ++ [WorkerManager.max_restarts_alert "farcaster"
                            (now Configured.worn_out)])
     ∧ timers (WorkerManager.restartWorker default_healdec "farcaster"
                 Configured.worn_out).2
       = timers Configured.worn_out
     ∧ restartCounts (WorkerManager.restartWorker default_healdec "farcaster"
                        Configured.worn_out).2
       = restartCounts Configured.worn_out).
Proof.
  apply (restart_count_never_exceeds_maximum default_healdec "farcaster"
           Scenario.farcaster Configured.worn_out).
  - vm_compute. discriminate.
  - exact worn_out_reachable.
Defined.

(** C3 (scenario). In the configured orchestrator, after a requested
    restart and two crashes of the farcaster worker, each followed by
    its restart, the count of that worker is at the default maximum
    while the ethereum worker still runs.  The alert
    that a fourth failure report raises does not carry the message
    "max restarts reached", and a restart request in that state raises
    no alert. *)
Lemma max_restarts_alert_has_other_text :
  Supervisor.reachable default_healdec Configured.worn_out
  ∧ CONFIG_workers Configured.worn_out !! "farcaster" = Some Scenario.farcaster
  ∧ is_Some (workers Configured.worn_out !! "ethereum")
  ∧ WorkerManager.get_restartCount "farcaster" Configured.worn_out
    = maxRestarts default_healdec
  ∧ (¬ ∃ a : Alert,
         a ∈ alerts (WorkerManager.handleWorkerFailure default_healdec "farcaster"
                       Scenario.farcaster Configured.worn_out).2
         ∧ level a = Spec.critical
         ∧ message a = "max restarts reached")
  ∧ alerts (WorkerManager.restartWorker default_healdec "farcaster"
              Configured.worn_out).2 = [].
Proof.
  split; [exact worn_out_reachable|].
  split; [vm_compute; reflexivity|].
  split; [vm_compute; eauto|].
  split; [vm_compute; reflexivity|].
  split; [|vm_compute; reflexivity].
  assert (alerts (WorkerManager.handleWorkerFailure default_healdec "farcaster"
                    Scenario.farcaster Configured.worn_out).2
          = [WorkerManager.max_restarts_alert "farcaster" 35000]) as ->
    by (vm_compute; reflexivity).
  intros (a & Hin & _ & Hmessage).
  apply list_elem_of_singleton in Hin. subst a. discriminate Hmessage.
Qed.

(** ** [safeUpdate] for every target *)

Section EngineProperties.

Context `{Collaborators}.






End EngineProperties.


